(** * Loan-default prediction service: attribution, ranking and batch aggregation

    A shallow embedding of the serving code of [api/app.py] ([predict],
    [batch_predict]) and of [ModelExplainer.get_feature_contributions]
    ([src/explainability.py]).

    Numbers.  A finite binary64 value is a rational, and [abs], [<], [>] and
    [==] on finite floats are exact, so contributions and probabilities are
    carried as [Q]; NaN and the infinities are outside the model.  A
    division, multiplication or addition of floats returns the binary64
    value nearest to the exact result ([PyNum.fl]); results that overflow
    or are subnormal are outside the model.  [round] is the
    round-half-to-even of Python on the exact value; the model keeps the
    decimal it denotes (Python returns the double nearest to it).

    Effects.  The model, the preprocessing pipeline and the explainer are
    collaborators passed in as records of functions that may raise.  An
    exception is a value of [exn]; a handler body returns [exn + A] and the
    [try ... except Exception] of the handlers turns [inl e] into an
    [HTTPException].  Timing, logging and the metrics counters do not
    influence a response and are left out. *)

From Stdlib Require Import List String ZArith QArith Qpower Qround Qabs Lia Lqa Bool.
From Stdlib Require Import Sorting.Permutation Sorting.Sorted.
Import ListNotations.

Local Open Scope Q_scope.

(** ** Python numbers *)

Module PyNum.

(** [x > y] on floats. *)
Definition gtb (x y : Q) : bool :=
  match (x ?= y)%Q with Gt => true | _ => false end.

(** [x == y] on floats. *)
Definition eqb (x y : Q) : bool := Qeq_bool x y.

(** Nearest integer, ties to the even one. *)
Definition round_half_even (x : Q) : Z :=
  let f := Qfloor x in
  match (x - inject_Z f ?= 1 # 2)%Q with
  | Lt => f
  | Gt => (f + 1)%Z
  | Eq => if Z.even f then f else (f + 1)%Z
  end.

(** [round(x, ndigits)] for a float [x] and [ndigits >= 0]. *)
Definition round (x : Q) (ndigits : nat) : Q :=
  let p := inject_Z (10 ^ Z.of_nat ndigits) in
  inject_Z (round_half_even (x * p)) / p.

(** Floor of the binary logarithm of [x > 0]. *)
Definition ilog2 (x : Q) : Z :=
  let k := (Z.log2 (Qnum x) - Z.log2 (Zpos (Qden x)))%Z in
  if Qle_bool (2 ^ k) x then k else (k - 1)%Z.

(** The binary64 value nearest to [x > 0]: a significand of 53 bits, ties
    to the even significand. *)
Definition nearest (x : Q) : Q :=
  let e := (ilog2 x - 52)%Z in
  inject_Z (round_half_even (x / 2 ^ e)) * 2 ^ e.

(** The result of a float operation whose exact result is [x]. *)
Definition fl (x : Q) : Q :=
  match (x ?= 0)%Q with
  | Eq => 0
  | Gt => nearest x
  | Lt => - nearest (- x)
  end.

End PyNum.

(** ** Python dictionaries

    A [dict] keeps its keys in insertion order; assigning to a key that is
    already present replaces the value and leaves the key where it is. *)

Module PyDict.

Section Dict.
Context {V : Type}.

Definition dict := list (string * V).

Fixpoint setitem (k : string) (v : V) (d : dict) : dict :=
  match d with
  | [] => [(k, v)]
  | (k', v') :: d' =>
      if String.eqb k' k then (k', v) :: d' else (k', v') :: setitem k v d'
  end.

(** [{k: v for k, v in pairs}] and [dict(pairs)]. *)
Definition of_pairs (pairs : list (string * V)) : dict :=
  fold_left (fun d kv => setitem (fst kv) (snd kv) d) pairs [].

Definition items (d : dict) : list (string * V) := d.
Definition keys (d : dict) : list string := map fst d.
Definition values (d : dict) : list V := map snd d.

End Dict.
Arguments dict V : clear implicits.

End PyDict.

(** ** [sorted(xs, key=..., reverse=True)]

    The builtin is a stable sort, and stays stable under [reverse=True]:
    elements with equal keys keep the order they had in the input.  The
    model inserts from the right, stepping over the strictly larger keys
    only. *)

Section Sorted.
Context {A : Type} (key : A -> Q).

Fixpoint insert_desc (x : A) (l : list A) : list A :=
  match l with
  | [] => [x]
  | y :: l' =>
      if PyNum.gtb (key y) (key x) then y :: insert_desc x l' else x :: l
  end.

Definition sorted_desc (l : list A) : list A :=
  fold_right insert_desc [] l.

(** [y] does not rank above [x]: the order of a descending list. *)
Definition ge_key (x y : A) : Prop := key y <= key x.

(** The elements whose key is [m], in the order in which they occur. *)
Definition with_key (m : Q) (l : list A) : list A :=
  filter (fun x => PyNum.eqb (key x) m) l.

End Sorted.

(** ** Exceptions *)

Inductive exn : Type :=
| IndexError
| TypeError
| AttributeError
| ZeroDivisionError
| Raised (msg : string).   (* raised inside a collaborator *)

Definition exc (A : Type) : Type := (exn + A)%type.

Definition ret {A : Type} (x : A) : exc A := inr x.
Definition raise {A : Type} (e : exn) : exc A := inl e.
Definition bind {A B : Type} (c : exc A) (k : A -> exc B) : exc B :=
  match c with
  | inl e => inl e
  | inr x => k x
  end.

Declare Scope exc_scope.
Delimit Scope exc_scope with exc.
Notation "x <- c ;; k" := (bind c (fun x => k))
  (at level 61, c at next level, right associativity) : exc_scope.
Local Open Scope exc_scope.

(** [for x in xs: ... f(x) ...], stopping at the first exception. *)
Fixpoint mapM {A B : Type} (f : A -> exc B) (l : list A) : exc (list B) :=
  match l with
  | [] => ret []
  | x :: l' => y <- f x ;; ys <- mapM f l' ;; ret (y :: ys)
  end.

(** [xs[i]] on a Python list, [i >= 0]. *)
Definition list_getitem {A : Type} (l : list A) (i : nat) : exc A :=
  match nth_error l i with
  | Some x => ret x
  | None => raise IndexError
  end.

(** [a / b] on integers: the quotient, correctly rounded. *)
Definition truediv (a b : Z) : exc Q :=
  if (b =? 0)%Z then raise ZeroDivisionError
  else ret (PyNum.fl (inject_Z a / inject_Z b)).

(** ** numpy arrays, as far as the handlers look into them *)

#[warnings="-register-all"]
Inductive ndarray : Type :=
| Scalar (x : Q)
| Array (elems : list ndarray).

(** [len(a.shape)] *)
Fixpoint ndim (a : ndarray) : nat :=
  match a with
  | Scalar _ => 0
  | Array [] => 1
  | Array (x :: _) => S (ndim x)
  end.

(** [a[i]], [i >= 0] *)
Definition getitem (a : ndarray) (i : nat) : exc ndarray :=
  match a with
  | Scalar _ => raise IndexError
  | Array l => list_getitem l i
  end.

(** [iter(a)]: a 0-d array is not iterable. *)
Definition iter (a : ndarray) : exc (list ndarray) :=
  match a with
  | Scalar _ => raise TypeError
  | Array l => ret l
  end.

(** [float(v)]: defined on scalars and on arrays of one element. *)
Fixpoint float (v : ndarray) : exc Q :=
  match v with
  | Scalar x => ret x
  | Array [x] => float x
  | Array _ => raise TypeError
  end.

(** A 1-d array of floats. *)
Definition array1 (xs : list Q) : ndarray := Array (map Scalar xs).

(** ** Request and response shapes *)

Record LoanApplication : Type := {
  Gender : string;
  Married : string;
  Dependents : string;
  Education : string;
  Self_Employed : string;
  ApplicantIncome : Q;
  CoapplicantIncome : Q;
  LoanAmount : Q;
  Loan_Amount_Term : Q;
  Credit_History : Q;
  Property_Area : string
}.

(** [pd.DataFrame([application.dict()])] *)
Definition DataFrame : Type := list LoanApplication.

Inductive detail_t : Type :=
| Text (s : string)
| str (e : exn).

Record HTTPException : Type := {
  status_code : Z;
  detail : detail_t
}.

Record Factor : Type := {
  feature : string;
  contribution : Q;
  impact : string
}.

Record Prediction : Type := {
  prediction : string;
  probability : Q;
  shap_contributions : PyDict.dict Q;
  top_factors : list Factor
}.

Module Batch.

Record Row : Type := {
  application_id : Z;
  prediction : string;
  probability : Q;
  top_factors : list Factor
}.

Record Response : Type := {
  predictions : list Row;
  total_processed : Z;
  approved : Z;
  rejected : Z;
  approval_rate_percent : Q
}.

End Batch.

(** ** Collaborators: the loaded model, pipeline and explainer *)

Module Collab.

Record Model : Type := {
  predict : ndarray -> exc (list Z);
  predict_proba : ndarray -> exc (list (list Q))
}.

Record Preprocessor : Type := {
  transform : DataFrame -> exc ndarray;
  get_feature_names_out : exc (list string)
}.

Record Explainer : Type := {
  shap_values : ndarray -> exc ndarray
}.

End Collab.

(** The module-level names of [api/app.py] after start-up. *)
Record Globals : Type := {
  model : option Collab.Model;
  preprocessor : option Collab.Preprocessor;
  explainer : option Collab.Explainer;
  feature_names_list : option (list string)
}.

(** ** [api/app.py]: the two prediction endpoints *)

Module App.

Section Handlers.
Variable g : Globals.

(** [obj.attr] on a module-level name that may be [None]. *)
Definition attr {A : Type} (o : option A) : exc A :=
  match o with
  | Some x => ret x
  | None => raise AttributeError
  end.

(** [{k: float(v) for k, v in zip(feature_names, row)}] *)
Definition contribution_dict (feature_names : list string) (row : ndarray)
  : exc (PyDict.dict Q) :=
  vs <- iter row ;;
  kvs <- mapM (fun kv => x <- float (snd kv) ;; ret (fst kv, x))
              (combine feature_names vs) ;;
  ret (PyDict.of_pairs kvs).

(** Lines 203-206 and 271-274: the stored names when the list is truthy. *)
Definition stored_feature_names (p : Collab.Preprocessor) : exc (list string) :=
  match feature_names_list g with
  | Some (n :: ns) => ret (n :: ns)
  | _ => Collab.get_feature_names_out p
  end.

(** The body of the [try] of [predict], lines 189-236. *)
Definition predict_try (m : Collab.Model) (p : Collab.Preprocessor)
    (application : LoanApplication) : exc Prediction :=
  let input_df := [application] in
  processed <- Collab.transform p input_df ;;
  labels <- Collab.predict m processed ;;
  prediction <- list_getitem labels 0 ;;
  probas <- Collab.predict_proba m processed ;;
  proba0 <- list_getitem probas 0 ;;
  probability <- list_getitem proba0 1 ;;
  ex <- attr (explainer g) ;;
  shap_values <- Collab.shap_values ex processed ;;
  feature_names <- stored_feature_names p ;;
  shap_contribution <-
    (if Nat.eqb (ndim shap_values) 3 then
       s0 <- getitem shap_values 0 ;;
       s00 <- getitem s0 0 ;;
       contribution_dict feature_names s00
     else
       s0 <- getitem shap_values 0 ;;
       contribution_dict feature_names s0) ;;
  let sorted_features :=
    firstn 5 (sorted_desc (fun x => Qabs (snd x)) (PyDict.items shap_contribution)) in
  let top_factors :=
    map (fun fc : string * Q =>
           let (feat, contrib) := fc in
           {| feature := feat;
              contribution := PyNum.round contrib 4;
              impact := if PyNum.gtb contrib 0 then "Positive"%string else "Negative"%string |})
        sorted_features in
  let prediction_label := if (prediction =? 1)%Z then "Approved"%string else "Rejected"%string in
  ret {| prediction := prediction_label;
         probability := PyNum.round probability 4;
         shap_contributions := shap_contribution;
         top_factors := top_factors |}.

(** [POST /predict] *)
Definition predict (application : LoanApplication) : HTTPException + Prediction :=
  match model g, preprocessor g with
  | Some m, Some p =>
      match predict_try m p application with
      | inr r => inr r
      | inl e => inl {| status_code := 500; detail := str e |}
      end
  | _, _ => inl {| status_code := 503; detail := Text "Model not loaded"%string |}
  end.

(** The [for idx, app in enumerate(request.applications)] loop of
    [batch_predict], lines 255-298; [idx] is the index of the head of
    [applications] and [results] the list built so far. *)
Fixpoint batch_loop (m : Collab.Model) (p : Collab.Preprocessor)
    (idx : Z) (applications : list LoanApplication) (results : list Batch.Row)
  : exc (list Batch.Row) :=
  match applications with
  | [] => ret results
  | app :: rest =>
      let input_df := [app] in
      processed <- Collab.transform p input_df ;;
      labels <- Collab.predict m processed ;;
      prediction <- list_getitem labels 0 ;;
      probas <- Collab.predict_proba m processed ;;
      proba0 <- list_getitem probas 0 ;;
      probability <- list_getitem proba0 1 ;;
      ex <- attr (explainer g) ;;
      shap_values <- Collab.shap_values ex processed ;;
      feature_names <- stored_feature_names p ;;
      shap_contribution <-
        (if Nat.eqb (ndim shap_values) 3 then
           s0 <- getitem shap_values 0 ;;
           s00 <- getitem s0 0 ;;
           contribution_dict feature_names s00
         else
           s0 <- getitem shap_values 0 ;;
           contribution_dict feature_names s0) ;;
      let sorted_features :=
        firstn 5 (sorted_desc (fun x => Qabs (snd x)) (PyDict.items shap_contribution)) in
      let top_factors :=
        map (fun fc : string * Q =>
               let (feat, contrib) := fc in
               {| feature := feat;
                  contribution := PyNum.round contrib 4;
                  impact := if PyNum.gtb contrib 0 then "Positive"%string else "Negative"%string |})
            sorted_features in
      batch_loop m p (idx + 1) rest
        (results ++ [ {| Batch.application_id := idx + 1;
                         Batch.prediction :=
                           if (prediction =? 1)%Z then "Approved"%string else "Rejected"%string;
                         Batch.probability := PyNum.round probability 4;
                         Batch.top_factors := top_factors |} ])
  end.

(** [sum(1 for r in results if r["prediction"] == label)] *)
Definition count_label (label : string) (results : list Batch.Row) : Z :=
  Z.of_nat (List.length (filter (fun r => String.eqb (Batch.prediction r) label) results)).

(** The body of the [try] of [batch_predict], lines 255-315. *)
Definition batch_predict_try (m : Collab.Model) (p : Collab.Preprocessor)
    (applications : list LoanApplication) : exc Batch.Response :=
  results <- batch_loop m p 0 applications [] ;;
  let approved := count_label "Approved"%string results in
  let rejected := count_label "Rejected"%string results in
  rate <- truediv approved (Z.of_nat (List.length results)) ;;
  ret {| Batch.predictions := results;
         Batch.total_processed := Z.of_nat (List.length results);
         Batch.approved := approved;
         Batch.rejected := rejected;
         Batch.approval_rate_percent := PyNum.round (PyNum.fl (rate * 100)) 2 |}.

(** [POST /batch_predict] *)
Definition batch_predict (applications : list LoanApplication)
  : HTTPException + Batch.Response :=
  match model g, preprocessor g with
  | Some m, Some p =>
      match batch_predict_try m p applications with
      | inr r => inr r
      | inl e => inl {| status_code := 500; detail := str e |}
      end
  | _, _ => inl {| status_code := 503; detail := Text "Model not loaded"%string |}
  end.

End Handlers.

End App.

(** ** [src/explainability.py]: [ModelExplainer.get_feature_contributions] *)

Module ModelExplainer.

Record t : Type := {
  explainer : Collab.Explainer;
  feature_names : list string
}.

(** [contributions[feature] = float(shap_values_sample[0][i])] for
    [i, feature] in [enumerate(feature_names)], lines 159-161. *)
Fixpoint fill (shap_values_sample : ndarray) (i : nat) (names : list string)
    (contributions : PyDict.dict Q) : exc (PyDict.dict Q) :=
  match names with
  | [] => ret contributions
  | feature :: rest =>
      row0 <- getitem shap_values_sample 0 ;;
      v <- getitem row0 i ;;
      x <- float v ;;
      fill shap_values_sample (S i) rest (PyDict.setitem feature x contributions)
  end.

Definition get_feature_contributions (self : t) (X_sample : ndarray)
  : exc (PyDict.dict Q) :=
  let X_sample := if Nat.eqb (ndim X_sample) 1 then Array [X_sample] else X_sample in
  shap_values_sample <- Collab.shap_values (explainer self) X_sample ;;
  contributions <- fill shap_values_sample 0 (feature_names self) [] ;;
  ret (PyDict.of_pairs
         (sorted_desc (fun x => Qabs (snd x)) (PyDict.items contributions))).

End ModelExplainer.


(** ** The row-level steps that both endpoints spell out

    [predict] and [batch_predict] each carry their own copy of the steps
    from the data frame to the top factors (lines 189-223 and 257-291);
    the copies are embedded above as they stand.  The definitions below
    name the common steps, so that each endpoint can be shown to perform
    exactly them. *)

Module Row.

Record Explained : Type := {
  label : Z;
  proba : Q;
  attribution : PyDict.dict Q
}.

(** Lines 209-212: which part of [shap_values] is zipped with the names. *)
Definition select_slice (shap_values : ndarray) : exc ndarray :=
  if Nat.eqb (ndim shap_values) 3 then
    s0 <- getitem shap_values 0 ;; getitem s0 0
  else getitem shap_values 0.

Section Row.
Variable g : Globals.

(** Lines 190-212: transform, predict, explain, name. *)
Definition explain_row (m : Collab.Model) (p : Collab.Preprocessor)
    (application : LoanApplication) : exc Explained :=
  processed <- Collab.transform p [application] ;;
  labels <- Collab.predict m processed ;;
  prediction <- list_getitem labels 0 ;;
  probas <- Collab.predict_proba m processed ;;
  proba0 <- list_getitem probas 0 ;;
  probability <- list_getitem proba0 1 ;;
  ex <- App.attr (explainer g) ;;
  shap_values <- Collab.shap_values ex processed ;;
  feature_names <- App.stored_feature_names g p ;;
  slice <- select_slice shap_values ;;
  shap_contribution <- App.contribution_dict feature_names slice ;;
  ret {| label := prediction; proba := probability;
         attribution := shap_contribution |}.

(** What the collaborators answered on the way to [x]. *)
Record Trace : Type := {
  processed : ndarray;
  shap : ndarray;
  names : list string;
  slice : ndarray
}.

Definition explains (m : Collab.Model) (p : Collab.Preprocessor)
    (application : LoanApplication) (t : Trace) (x : Explained) : Prop :=
  Collab.transform p [application] = inr (processed t) /\
  (exists labels, Collab.predict m (processed t) = inr labels /\
                  list_getitem labels 0 = inr (label x)) /\
  (exists probas proba0, Collab.predict_proba m (processed t) = inr probas /\
                         list_getitem probas 0 = inr proba0 /\
                         list_getitem proba0 1 = inr (proba x)) /\
  (exists ex, explainer g = Some ex /\
              Collab.shap_values ex (processed t) = inr (shap t)) /\
  App.stored_feature_names g p = inr (names t) /\
  select_slice (shap t) = inr (slice t) /\
  App.contribution_dict (names t) (slice t) = inr (attribution x).

End Row.

(** Lines 219-223: one displayed factor. *)
Definition factor_of (fc : string * Q) : Factor :=
  {| feature := fst fc;
     contribution := PyNum.round (snd fc) 4;
     impact := if PyNum.gtb (snd fc) 0 then "Positive"%string else "Negative"%string |}.

(** Lines 215-217: the items in ranking order, before the slice [[:5]]. *)
Definition ranking (d : PyDict.dict Q) : list (string * Q) :=
  sorted_desc (fun x => Qabs (snd x)) (PyDict.items d).

(** Lines 215-223. *)
Definition rank5 (d : PyDict.dict Q) : list Factor :=
  map factor_of (firstn 5 (ranking d)).

Definition label_of (prediction : Z) : string :=
  if (prediction =? 1)%Z then "Approved"%string else "Rejected"%string.

Definition to_prediction (x : Explained) : Prediction :=
  {| prediction := label_of (label x);
     probability := PyNum.round (proba x) 4;
     shap_contributions := attribution x;
     top_factors := rank5 (attribution x) |}.

Definition to_batch_row (idx : Z) (x : Explained) : Batch.Row :=
  {| Batch.application_id := idx + 1;
     Batch.prediction := label_of (label x);
     Batch.probability := PyNum.round (proba x) 4;
     Batch.top_factors := rank5 (attribution x) |}.

(** The rows appended for [xs] when the first of them has index [idx]. *)
Fixpoint number (idx : Z) (xs : list Explained) : list Batch.Row :=
  match xs with
  | [] => []
  | x :: xs' => to_batch_row idx x :: number (idx + 1) xs'
  end.

End Row.

(** ** The contract of the ranker and of the aggregator, in the words of
    the specification *)

Module Spec.

(** Absolute contribution magnitude of an item of the mapping. *)
Definition magnitude (fc : string * Q) : Q := Qabs (snd fc).

(** [factors] are the first [k] of the items of [attribution] sorted by
    unrounded magnitude, descending, ties in the iteration order of the
    mapping; the displayed contribution is rounded to 4 places. *)
Definition ranks_top (k : nat) (attribution : PyDict.dict Q)
    (factors : list Factor) : Prop :=
  exists ranked : list (string * Q),
    Permutation ranked (PyDict.items attribution) /\
    StronglySorted (ge_key magnitude) ranked /\
    (forall m, with_key magnitude m ranked
               = with_key magnitude m (PyDict.items attribution)) /\
    map feature factors = map fst (firstn k ranked) /\
    map contribution factors
      = map (fun fc => PyNum.round (snd fc) 4) (firstn k ranked).

(** What [rank(attribution, k)] may answer. *)
Inductive rank_result : Type :=
| InvalidK
| Ranked (factors : list Factor).

(** [InvalidK] for [k <= 0]; all the features when there are fewer than [k]. *)
Definition rank_contract (k : Z) (attribution : PyDict.dict Q)
    (res : rank_result) : Prop :=
  ((k <= 0)%Z -> res = InvalidK) /\
  ((Z.of_nat (List.length attribution) < k)%Z ->
     exists factors, res = Ranked factors /\
       List.length factors = List.length attribution /\
       Permutation (map feature factors) (PyDict.keys attribution)).

(** [approval_rate = approved / total * 100] rounded to 2 places, [0] when
    [total] is [0]. *)
Definition approval_rate (approved total : Z) : Q :=
  if (total =? 0)%Z then 0
  else PyNum.round (inject_Z approved / inject_Z total * 100) 2.

(** A 3-d array of attributions is indexed [row][feature][class], the
    layout in which the explainer library answers for a model with several
    outputs.  The values of class [c] for the first row, one per feature: *)
Definition class_values (c : nat) (shap_values : ndarray) : exc (list ndarray) :=
  row0 <- getitem shap_values 0 ;;
  per_feature <- iter row0 ;;
  mapM (fun per_class => getitem per_class c) per_feature.

End Spec.

(** ** What the ensemble does with a row of the wrong width

    The number of features the model was trained on is known to the model
    and to the explainer built from it, not to the handlers; a
    gradient-boosted classifier raises on a matrix with another number of
    columns. *)

Module Ensemble.

(** The number of columns of a matrix, read off its first row. *)
Definition width (X : ndarray) : option nat :=
  match X with
  | Array (Array row :: _) => Some (List.length row)
  | _ => None
  end.

Definition is_width (n : nat) (X : ndarray) : bool :=
  match width X with
  | Some k => Nat.eqb k n
  | None => false
  end.



End Ensemble.

(** ** Concrete services used in the examples *)

Module Example.

(** The first application of [test_api.py]. *)
Definition application : LoanApplication :=
  {| Gender := "Male"; Married := "Yes"; Dependents := "0";
     Education := "Graduate"; Self_Employed := "No";
     ApplicantIncome := 75000; CoapplicantIncome := 0; LoanAmount := 150;
     Loan_Amount_Term := 360; Credit_History := 1; Property_Area := "Urban" |}.

(** A loaded service whose explainer answers [shap] for every row, whose
    model answers [label] with probability [p1] for class 1. *)
Definition service (names : list string) (shap : exc ndarray)
    (label : Z) (p1 : Q) : Globals :=
  {| model := Some {| Collab.predict := fun _ => ret [label];
                      Collab.predict_proba := fun _ => ret [[1 - p1; p1]] |};
     preprocessor := Some {| Collab.transform := fun _ => ret (Array [Array []]);
                             Collab.get_feature_names_out := ret names |};
     explainer := Some {| Collab.shap_values := fun _ => shap |};
     feature_names_list := Some names |}.

(** The attribution of the ranking-order example of the specification. *)
Definition six : Globals :=
  service ["A"; "B"; "C"; "D"; "E"; "F"]%string
          (ret (Array [array1 [5 # 10; -8 # 10; 3 # 10; 1 # 10; 5 # 100; 9 # 10]]))
          1 (3 # 4).

(** Three features, one of them with contribution 0. *)
Definition three : Globals :=
  service ["A"; "B"; "C"]%string (ret (Array [array1 [2 # 10; 0; -7 # 10]])) 0 (1 # 4).

(** A [ModelExplainer] over the same three features. *)
Definition explainer3 : ModelExplainer.t :=
  {| ModelExplainer.explainer :=
       {| Collab.shap_values := fun _ => ret (Array [array1 [2 # 10; 0; -7 # 10]]) |};
     ModelExplainer.feature_names := ["A"; "B"; "C"]%string |}.

(** Attributions of a model with two outputs, shape (1, 2, 2): one row;
    feature A with -0.3 for class 0 and 0.3 for class 1; feature B with 0.1
    for class 0 and -0.1 for class 1. *)
Definition two_outputs : ndarray :=
  Array [Array [array1 [-3 # 10; 3 # 10]; array1 [1 # 10; -1 # 10]]].

Definition multi_output : Globals :=
  service ["A"; "B"]%string (ret two_outputs) 1 (3 # 4).

(** A service trained on three features whose model and explainer raise on
    a matrix of another width; the pipeline transforms every application
    into [row]. *)
Definition strict (row : list Q) : Globals :=
  let mismatch := Raised "Feature shape mismatch, expected: 3" in
  {| model :=
       Some {| Collab.predict :=
                 fun X => if Ensemble.is_width 3 X then ret [1%Z] else raise mismatch;
               Collab.predict_proba :=
                 fun X => if Ensemble.is_width 3 X then ret [[1 # 4; 3 # 4]]
                          else raise mismatch |};
     preprocessor :=
       Some {| Collab.transform := fun _ => ret (Array [array1 row]);
               Collab.get_feature_names_out := ret ["A"; "B"; "C"]%string |};
     explainer :=
       Some {| Collab.shap_values :=
                 fun X => if Ensemble.is_width 3 X then ret X else raise mismatch |};
     feature_names_list := Some ["A"; "B"; "C"]%string |}.



(** Three feature names, a transformed row of two values, and an explainer
    that answers one value per column of its input. *)
Definition mismatched : Globals :=
  {| model := Some {| Collab.predict := fun _ => ret [1%Z];
                      Collab.predict_proba := fun _ => ret [[1 # 4; 3 # 4]] |};
     preprocessor :=
       Some {| Collab.transform := fun _ => ret (Array [array1 [1; 2]]);
               Collab.get_feature_names_out := ret ["A"; "B"; "C"]%string |};
     explainer := Some {| Collab.shap_values := fun X => ret X |};
     feature_names_list := Some ["A"; "B"; "C"]%string |}.

(** An explainer that rejects every row. *)
Definition rejecting : Globals :=
  service ["A"; "B"; "C"]%string (raise (Raised "feature shape mismatch")) 1 (3 # 4).

(** Not loaded: the start-up [try] failed. *)
Definition unloaded : Globals :=
  {| model := None; preprocessor := None; explainer := None;
     feature_names_list := None |}.

End Example.

(** ** [api/app.py]: the metrics counters, lines 33-94

    [start_time] serves only to compute the uptime; the uptime is passed to
    the functions that report it. *)

(** [a / b] on floats, and on a float and an integer that a float holds
    exactly. *)
Definition truediv_float (a b : Q) : exc Q :=
  if Qeq_bool b 0 then raise ZeroDivisionError else ret (PyNum.fl (a / b)).

Module Stats.

(** The dictionary of [get_stats]. *)
Record t : Type := {
  uptime_seconds : Q;
  total_requests : Z;
  total_predictions : Z;
  total_batch_predictions : Z;
  approved_count : Z;
  rejected_count : Z;
  approval_rate_percent : Q;
  error_count : Z;
  avg_response_time_seconds : Q;
  requests_per_minute : Q
}.

End Stats.

Module APIMetrics.

Record t : Type := {
  total_requests : Z;
  total_predictions : Z;
  total_batch_predictions : Z;
  approved_count : Z;
  rejected_count : Z;
  error_count : Z;
  total_response_time : Q
}.

(** [__init__] *)
Definition init : t :=
  {| total_requests := 0; total_predictions := 0; total_batch_predictions := 0;
     approved_count := 0; rejected_count := 0; error_count := 0;
     total_response_time := 0 |}.

Definition log_prediction (self : t) (prediction : string) (response_time : Q) : t :=
  {| total_requests := (total_requests self + 1)%Z;
     total_predictions := (total_predictions self + 1)%Z;
     total_batch_predictions := total_batch_predictions self;
     approved_count :=
       if String.eqb prediction "Approved" then (approved_count self + 1)%Z
       else approved_count self;
     rejected_count :=
       if String.eqb prediction "Approved" then rejected_count self
       else (rejected_count self + 1)%Z;
     error_count := error_count self;
     total_response_time := PyNum.fl (total_response_time self + response_time) |}.

Definition log_batch_prediction (self : t) (count approved rejected : Z)
    (response_time : Q) : t :=
  {| total_requests := (total_requests self + 1)%Z;
     total_predictions := total_predictions self;
     total_batch_predictions := (total_batch_predictions self + count)%Z;
     approved_count := (approved_count self + approved)%Z;
     rejected_count := (rejected_count self + rejected)%Z;
     error_count := error_count self;
     total_response_time := PyNum.fl (total_response_time self + response_time) |}.

Definition log_error (self : t) : t :=
  {| total_requests := total_requests self;
     total_predictions := total_predictions self;
     total_batch_predictions := total_batch_predictions self;
     approved_count := approved_count self;
     rejected_count := rejected_count self;
     error_count := (error_count self + 1)%Z;
     total_response_time := total_response_time self |}.

(** [get_stats], with [uptime] the seconds since [start_time]. *)
Definition get_stats (self : t) (uptime : Q) : exc Stats.t :=
  avg_response_time <-
    (if (total_requests self >? 0)%Z
     then truediv_float (total_response_time self) (inject_Z (total_requests self))
     else ret 0) ;;
  let total_decisions := (approved_count self + rejected_count self)%Z in
  approval_rate <-
    (if (total_decisions >? 0)%Z
     then x <- truediv (approved_count self) total_decisions ;;
          ret (PyNum.round (PyNum.fl (x * 100)) 2)
     else ret 0) ;;
  per_minute <-
    (if PyNum.gtb uptime 0
     then minutes <- truediv_float uptime 60 ;;
          x <- truediv_float (inject_Z (total_requests self)) minutes ;;
          ret (PyNum.round x 2)
     else ret 0) ;;
  ret {| Stats.uptime_seconds := PyNum.round uptime 2;
         Stats.total_requests := total_requests self;
         Stats.total_predictions := total_predictions self;
         Stats.total_batch_predictions := total_batch_predictions self;
         Stats.approved_count := approved_count self;
         Stats.rejected_count := rejected_count self;
         Stats.approval_rate_percent := approval_rate;
         Stats.error_count := error_count self;
         Stats.avg_response_time_seconds := PyNum.round avg_response_time 3;
         Stats.requests_per_minute := per_minute |}.

End APIMetrics.

(** ** [api/app.py]: the endpoints together with the counters they update

    [response_time] is the duration the handler measures with [time.time()].
    The bodies of the two [try] blocks are [App.predict_try] and
    [App.batch_loop] followed by the summary. *)

Module Endpoint.

Record Health : Type := {
  status : string;
  model_loaded : bool;
  preprocessor_loaded : bool;
  uptime_seconds : Q
}.

Record ModelInfo : Type := {
  model_type : string;
  n_features : Z;
  feature_names : list string
}.

Definition not_loaded : HTTPException :=
  {| status_code := 503; detail := Text "Model not loaded" |}.

Section Endpoint.
Variable g : Globals.

(** [GET /health], lines 168-176 *)
Definition health_check (uptime : Q) : Health :=
  {| status := "healthy";
     model_loaded := match model g with Some _ => true | None => false end;
     preprocessor_loaded := match preprocessor g with Some _ => true | None => false end;
     uptime_seconds := uptime |}.

(** [POST /predict], lines 179-242 *)
Definition predict (metrics : APIMetrics.t) (response_time : Q)
    (application : LoanApplication)
  : (HTTPException + Prediction) * APIMetrics.t :=
  match model g, preprocessor g with
  | Some m, Some p =>
      match App.predict_try g m p application with
      | inr r =>
          (inr r, APIMetrics.log_prediction metrics (prediction r) response_time)
      | inl e =>
          (inl {| status_code := 500; detail := str e |}, APIMetrics.log_error metrics)
      end
  | _, _ => (inl not_loaded, APIMetrics.log_error metrics)
  end.

(** [POST /batch_predict], lines 245-321: the counters are updated before
    the response, with its approval rate, is built. *)
Definition batch_predict (metrics : APIMetrics.t) (response_time : Q)
    (applications : list LoanApplication)
  : (HTTPException + Batch.Response) * APIMetrics.t :=
  match model g, preprocessor g with
  | Some m, Some p =>
      match App.batch_loop g m p 0 applications [] with
      | inl e =>
          (inl {| status_code := 500; detail := str e |}, APIMetrics.log_error metrics)
      | inr results =>
          let approved := App.count_label "Approved" results in
          let rejected := App.count_label "Rejected" results in
          let metrics :=
            APIMetrics.log_batch_prediction metrics (Z.of_nat (List.length results))
              approved rejected response_time in
          match truediv approved (Z.of_nat (List.length results)) with
          | inl e =>
              (inl {| status_code := 500; detail := str e |},
               APIMetrics.log_error metrics)
          | inr rate =>
              (inr {| Batch.predictions := results;
                      Batch.total_processed := Z.of_nat (List.length results);
                      Batch.approved := approved;
                      Batch.rejected := rejected;
                      Batch.approval_rate_percent := PyNum.round (PyNum.fl (rate * 100)) 2 |},
               metrics)
          end
      end
  | _, _ => (inl not_loaded, APIMetrics.log_error metrics)
  end.

(** [GET /metrics], lines 324-327 *)
Definition get_metrics (metrics : APIMetrics.t) (uptime : Q) : exc Stats.t :=
  APIMetrics.get_stats metrics uptime.

(** [GET /model_info], lines 330-345; [type_name] is [type(model).__name__].
    An exception of [get_feature_names_out] is not caught here. *)
Definition model_info (type_name : Collab.Model -> string)
  : exc (HTTPException + ModelInfo) :=
  match model g with
  | None => ret (inl not_loaded)
  | Some m =>
      features <-
        match feature_names_list g with
        | Some (n :: ns) => ret (n :: ns)
        | _ => match preprocessor g with
               | Some p => Collab.get_feature_names_out p
               | None => ret []
               end
        end ;;
      ret (inr {| model_type := type_name m;
                  n_features := Z.of_nat (List.length features);
                  feature_names := features |})
  end.

(** The requests that touch the counters, each with the duration its
    handler measures, and what is answered. *)
Inductive Request : Type :=
| PostPredict (application : LoanApplication) (response_time : Q)
| PostBatchPredict (applications : list LoanApplication) (response_time : Q).

Inductive Answer : Type :=
| Single (r : HTTPException + Prediction)
| Batched (r : HTTPException + Batch.Response).

Definition is_error (a : Answer) : bool :=
  match a with
  | Single (inl _) | Batched (inl _) => true
  | _ => false
  end.

Definition serve (metrics : APIMetrics.t) (req : Request) : Answer * APIMetrics.t :=
  match req with
  | PostPredict application response_time =>
      let (r, metrics') := predict metrics response_time application in
      (Single r, metrics')
  | PostBatchPredict applications response_time =>
      let (r, metrics') := batch_predict metrics response_time applications in
      (Batched r, metrics')
  end.

(** The requests of a process, one after the other. *)
Fixpoint run (metrics : APIMetrics.t) (reqs : list Request)
  : list Answer * APIMetrics.t :=
  match reqs with
  | [] => ([], metrics)
  | req :: rest =>
      let (a, metrics') := serve metrics req in
      let (answers, final) := run metrics' rest in
      (a :: answers, final)
  end.

End Endpoint.

End Endpoint.

(** ** Every endpoint of [api/app.py] *)

Module Service.

(** The dictionary of [GET /], lines 159-165. *)
Record Root : Type := {
  message : string;
  version : string;
  endpoints : list string
}.

Definition root : Root :=
  {| message := "Loan Default Prediction API with XAI is running";
     version := "1.0.0";
     endpoints :=
       ["/health"; "/predict"; "/batch_predict"; "/metrics"; "/model_info"]%string |}.

(** A request, with what its handler reads off the clock. *)
Inductive Request : Type :=
| Post (req : Endpoint.Request)
| GetRoot
| GetHealth (uptime : Q)
| GetMetrics (uptime : Q)
| GetModelInfo.

Inductive Answer : Type :=
| Posted (a : Endpoint.Answer)
| RootInfo (r : Root)
| Health (h : Endpoint.Health)
| Metrics (s : exc Stats.t)
| Info (i : exc (HTTPException + Endpoint.ModelInfo)).

Section Service.
Variable g : Globals.
Variable type_name : Collab.Model -> string.

(** Only the two [POST] handlers write the counters. *)
Definition serve (metrics : APIMetrics.t) (req : Request) : Answer * APIMetrics.t :=
  match req with
  | Post req =>
      let (a, metrics') := Endpoint.serve g metrics req in (Posted a, metrics')
  | GetRoot => (RootInfo root, metrics)
  | GetHealth uptime => (Health (Endpoint.health_check g uptime), metrics)
  | GetMetrics uptime => (Metrics (Endpoint.get_metrics metrics uptime), metrics)
  | GetModelInfo => (Info (Endpoint.model_info g type_name), metrics)
  end.

Fixpoint run (metrics : APIMetrics.t) (reqs : list Request)
  : list Answer * APIMetrics.t :=
  match reqs with
  | [] => ([], metrics)
  | req :: rest =>
      let (a, metrics') := serve metrics req in
      let (answers, final) := run metrics' rest in
      (a :: answers, final)
  end.

End Service.

(** An error answer of [POST /predict] or [POST /batch_predict]. *)
Definition is_post_error (a : Answer) : bool :=
  match a with
  | Posted a => Endpoint.is_error a
  | _ => false
  end.

(** A single prediction that was answered. *)
Definition is_prediction (a : Answer) : bool :=
  match a with
  | Posted (Endpoint.Single (inr _)) => true
  | _ => false
  end.

(** The number of rows of an answered batch. *)
Definition rows_of (a : Answer) : Z :=
  match a with
  | Posted (Endpoint.Batched (inr b)) => Z.of_nat (List.length (Batch.predictions b))
  | _ => 0
  end.

End Service.

(** The counters agree with what they count: every decision is a single
    prediction or a row of a batch, and nothing is negative. *)
Definition consistent (metrics : APIMetrics.t) : Prop :=
  (APIMetrics.approved_count metrics + APIMetrics.rejected_count metrics
   = APIMetrics.total_predictions metrics + APIMetrics.total_batch_predictions metrics)%Z /\
  (0 <= APIMetrics.approved_count metrics)%Z /\
  (0 <= APIMetrics.rejected_count metrics)%Z /\
  (0 <= APIMetrics.total_predictions metrics)%Z /\
  (0 <= APIMetrics.total_batch_predictions metrics)%Z /\
  (0 <= APIMetrics.total_requests metrics)%Z /\
  (0 <= APIMetrics.error_count metrics)%Z.

(** The number of rows of an answered batch. *)
Definition rows_of (a : Endpoint.Answer) : Z :=
  match a with
  | Endpoint.Batched (inr b) => Z.of_nat (List.length (Batch.predictions b))
  | _ => 0
  end.

Definition is_prediction (a : Endpoint.Answer) : bool :=
  match a with
  | Endpoint.Single (inr _) => true
  | _ => false
  end.

Definition count {A : Type} (f : A -> bool) (l : list A) : Z :=
  Z.of_nat (List.length (filter f l)).

Fixpoint sum (l : list Z) : Z :=
  match l with
  | [] => 0
  | x :: l' => x + sum l'
  end.

(** ** [api/app.py]: loading at start-up, lines 97-136

    What [joblib.load] finds in the preprocessor file is either the
    dictionary that [DataPreprocessor.save_preprocessor] writes (its two
    entries may be [None] when nothing was fitted) or a bare pipeline. *)

Module Startup.

Inductive Payload : Type :=
| Saved (preprocessor : option Collab.Preprocessor) (feature_names : option (list string))
| Bare (pipeline : Collab.Preprocessor).

Record Files : Type := {
  load_model : exc Collab.Model;
  load_preprocessor : exc Payload;
  TreeExplainer : Collab.Model -> exc Collab.Explainer
}.

(** Lines 114-126. *)
Definition sample_data : DataFrame :=
  [ {| Gender := "Male"; Married := "Yes"; Dependents := "0";
       Education := "Graduate"; Self_Employed := "No";
       ApplicantIncome := 5000; CoapplicantIncome := 0; LoanAmount := 100;
       Loan_Amount_Term := 360; Credit_History := 1; Property_Area := "Urban" |} ].

(** The body of the [try], lines 102-130. *)
Definition load_try (f : Files) : exc Globals :=
  model <- load_model f ;;
  preprocessor_dict <- load_preprocessor f ;;
  let (preprocessor, feature_names_list) :=
    match preprocessor_dict with
    | Saved p names => (p, names)
    | Bare p => (Some p, None)
    end in
  p <- App.attr preprocessor ;;
  sample_processed <- Collab.transform p sample_data ;;
  explainer <- TreeExplainer f model ;;
  ret {| model := Some model; preprocessor := Some p;
         explainer := Some explainer;
         feature_names_list := feature_names_list |}.

(** Lines 101-136: on any exception every name is set to [None]. *)
Definition load (f : Files) : Globals :=
  match load_try f with
  | inr g => g
  | inl _ => {| model := None; preprocessor := None; explainer := None;
                feature_names_list := None |}
  end.

End Startup.

(** ** [api/monitoring.py]: the counters of the monitoring module *)

Module MonitoringStats.

Record t : Type := {
  total_requests : Z;
  total_predictions : Z;
  total_batch_predictions : Z;
  approved_count : Z;
  rejected_count : Z;
  approval_rate : Q;
  error_count : Z;
  avg_response_time : Q
}.

End MonitoringStats.

Module Monitoring.

Record t : Type := {
  total_requests : Z;
  total_predictions : Z;
  total_batch_predictions : Z;
  approved_count : Z;
  rejected_count : Z;
  error_count : Z;
  total_response_time : Q
}.

Definition init : t :=
  {| total_requests := 0; total_predictions := 0; total_batch_predictions := 0;
     approved_count := 0; rejected_count := 0; error_count := 0;
     total_response_time := 0 |}.

Definition log_prediction (self : t) (prediction : string) (response_time : Q) : t :=
  {| total_requests := (total_requests self + 1)%Z;
     total_predictions := (total_predictions self + 1)%Z;
     total_batch_predictions := total_batch_predictions self;
     approved_count :=
       if String.eqb prediction "Approved" then (approved_count self + 1)%Z
       else approved_count self;
     rejected_count :=
       if String.eqb prediction "Approved" then rejected_count self
       else (rejected_count self + 1)%Z;
     error_count := error_count self;
     total_response_time := PyNum.fl (total_response_time self + response_time) |}.

Definition log_batch_prediction (self : t) (count : Z) (response_time : Q) : t :=
  {| total_requests := (total_requests self + 1)%Z;
     total_predictions := total_predictions self;
     total_batch_predictions := (total_batch_predictions self + count)%Z;
     approved_count := approved_count self;
     rejected_count := rejected_count self;
     error_count := error_count self;
     total_response_time := PyNum.fl (total_response_time self + response_time) |}.

Definition log_error (self : t) : t :=
  {| total_requests := total_requests self;
     total_predictions := total_predictions self;
     total_batch_predictions := total_batch_predictions self;
     approved_count := approved_count self;
     rejected_count := rejected_count self;
     error_count := (error_count self + 1)%Z;
     total_response_time := total_response_time self |}.

Definition get_stats (self : t) : exc MonitoringStats.t :=
  avg_response_time <-
    (if (total_requests self >? 0)%Z
     then truediv_float (total_response_time self) (inject_Z (total_requests self))
     else ret 0) ;;
  approval_rate <-
    (if (total_predictions self >? 0)%Z
     then x <- truediv (approved_count self) (total_predictions self) ;;
          ret (PyNum.round (PyNum.fl (x * 100)) 2)
     else ret 0) ;;
  ret {| MonitoringStats.total_requests := total_requests self;
         MonitoringStats.total_predictions := total_predictions self;
         MonitoringStats.total_batch_predictions := total_batch_predictions self;
         MonitoringStats.approved_count := approved_count self;
         MonitoringStats.rejected_count := rejected_count self;
         MonitoringStats.approval_rate := approval_rate;
         MonitoringStats.error_count := error_count self;
         MonitoringStats.avg_response_time := PyNum.round avg_response_time 3 |}.

(** A call of one of the logging methods. *)
Inductive Call : Type :=
| LogPrediction (prediction : string) (response_time : Q)
| LogBatchPrediction (count : Z) (response_time : Q)
| LogError.

Definition call (self : t) (c : Call) : t :=
  match c with
  | LogPrediction prediction response_time => log_prediction self prediction response_time
  | LogBatchPrediction count response_time => log_batch_prediction self count response_time
  | LogError => log_error self
  end.

End Monitoring.

(** [d.get(k)] *)
Fixpoint dict_get {V : Type} (k : string) (d : PyDict.dict V) : option V :=
  match d with
  | [] => None
  | (k', v) :: d' => if String.eqb k' k then Some v else dict_get k d'
  end.

(** ** Further services used in the examples *)

Module Example2.

(** A service whose pipeline raises on an application without loan amount
    and, differently, on one without income. *)
Definition selective : Globals :=
  {| model := Some {| Collab.predict := fun _ => ret [1%Z];
                      Collab.predict_proba := fun _ => ret [[1 # 4; 3 # 4]] |};
     preprocessor :=
       Some {| Collab.transform :=
                 fun df =>
                   match df with
                   | [application] =>
                       if Qeq_bool (LoanAmount application) 0
                       then raise (Raised "no loan amount")
                       else if Qeq_bool (ApplicantIncome application) 0
                       then raise (Raised "no income")
                       else ret (Array [array1 [1; 2; 3]])
                   | _ => raise TypeError
                   end;
               Collab.get_feature_names_out := ret ["A"; "B"; "C"]%string |};
     explainer := Some {| Collab.shap_values := fun X => ret X |};
     feature_names_list := Some ["A"; "B"; "C"]%string |}.

Definition no_loan_amount : LoanApplication :=
  {| Gender := "Female"; Married := "No"; Dependents := "1";
     Education := "Graduate"; Self_Employed := "Yes";
     ApplicantIncome := 45000; CoapplicantIncome := 15000; LoanAmount := 0;
     Loan_Amount_Term := 180; Credit_History := 0; Property_Area := "Rural" |}.

Definition no_income : LoanApplication :=
  {| Gender := "Male"; Married := "Yes"; Dependents := "2";
     Education := "Not Graduate"; Self_Employed := "No";
     ApplicantIncome := 0; CoapplicantIncome := 20000; LoanAmount := 80;
     Loan_Amount_Term := 240; Credit_History := 1; Property_Area := "Semiurban" |}.

(** A feature-name list in which A occurs twice. *)
Definition duplicated : Globals :=
  Example.service ["A"; "A"; "B"]%string
                  (ret (Array [array1 [1 # 10; 2 # 10; 3 # 10]])) 1 (3 # 4).

(** A [ModelExplainer] with four names whose explainer answers three values. *)
Definition short_row : ModelExplainer.t :=
  {| ModelExplainer.explainer :=
       {| Collab.shap_values := fun _ => ret (Array [array1 [2 # 10; 0; -7 # 10]]) |};
     ModelExplainer.feature_names := ["A"; "B"; "C"; "D"]%string |}.

(** Files from which the service of [Example.three] is loaded. *)
Definition files : Startup.Files :=
  {| Startup.load_model :=
       ret {| Collab.predict := fun _ => ret [0%Z];
              Collab.predict_proba := fun _ => ret [[3 # 4; 1 # 4]] |};
     Startup.load_preprocessor :=
       ret (Startup.Saved
              (Some {| Collab.transform := fun _ => ret (Array [Array []]);
                       Collab.get_feature_names_out := ret ["A"; "B"; "C"]%string |})
              (Some ["A"; "B"; "C"]%string));
     Startup.TreeExplainer :=
       fun _ => ret {| Collab.shap_values :=
                         fun _ => ret (Array [array1 [2 # 10; 0; -7 # 10]]) |} |}.

(** The same files with a preprocessor file written before any fit. *)
Definition unfitted : Startup.Files :=
  {| Startup.load_model := Startup.load_model files;
     Startup.load_preprocessor := ret (Startup.Saved None None);
     Startup.TreeExplainer := Startup.TreeExplainer files |}.

End Example2.
(** * Properties *)

(** ** The stable descending sort *)

Section SortedFacts.
Context {A : Type} (key : A -> Q).

Lemma gtb_true (x y : Q) : PyNum.gtb x y = true -> y < x.
Proof.
  unfold PyNum.gtb. destruct (x ?= y) eqn:E; try discriminate.
  intros _. now apply Qgt_alt.
Qed.

Lemma gtb_false (x y : Q) : PyNum.gtb x y = false -> x <= y.
Proof.
  unfold PyNum.gtb. intros H. apply Qle_alt. intros E. now rewrite E in H.
Qed.

Lemma insert_desc_perm (x : A) (l : list A) :
  Permutation (insert_desc key x l) (x :: l).
Proof.
  induction l as [|y l IH]; simpl; [reflexivity|].
  destruct (PyNum.gtb (key y) (key x)); [|reflexivity].
  rewrite IH. apply perm_swap.
Qed.

Lemma sorted_desc_perm (l : list A) : Permutation (sorted_desc key l) l.
Proof.
  induction l as [|x l IH]; simpl; [constructor|].
  rewrite insert_desc_perm. now constructor.
Qed.

Lemma sorted_desc_length (l : list A) :
  List.length (sorted_desc key l) = List.length l.
Proof. apply Permutation_length, sorted_desc_perm. Qed.

Lemma insert_desc_sorted (x : A) (l : list A) :
  StronglySorted (ge_key key) l -> StronglySorted (ge_key key) (insert_desc key x l).
Proof.
  induction 1 as [|y l Hs IH Hy]; simpl.
  - repeat constructor.
  - destruct (PyNum.gtb (key y) (key x)) eqn:E.
    + constructor; [exact IH|].
      apply (Permutation_Forall (Permutation_sym (insert_desc_perm x l))).
      constructor; [|exact Hy].
      apply Qlt_le_weak. now apply gtb_true.
    + apply gtb_false in E.
      constructor; [now constructor|].
      constructor; [exact E|].
      eapply Forall_impl; [|exact Hy].
      intros z Hz. unfold ge_key in *. now apply Qle_trans with (key y).
Qed.

Lemma sorted_desc_sorted (l : list A) :
  StronglySorted (ge_key key) (sorted_desc key l).
Proof.
  induction l as [|x l IH]; simpl; [constructor|].
  now apply insert_desc_sorted.
Qed.

Lemma insert_desc_stable (m : Q) (x : A) (l : list A) :
  with_key key m (insert_desc key x l) = with_key key m (x :: l).
Proof.
  unfold with_key.
  induction l as [|y l IH]; simpl; [reflexivity|].
  destruct (PyNum.gtb (key y) (key x)) eqn:E; [|reflexivity].
  apply gtb_true in E. simpl in *. rewrite IH.
  destruct (PyNum.eqb (key x) m) eqn:Ex; [|reflexivity].
  destruct (PyNum.eqb (key y) m) eqn:Ey; [|reflexivity].
  exfalso. unfold PyNum.eqb in *.
  apply Qeq_bool_iff in Ex. apply Qeq_bool_iff in Ey.
  rewrite Ex, Ey in E. exact (Qlt_irrefl _ E).
Qed.

Lemma sorted_desc_stable (m : Q) (l : list A) :
  with_key key m (sorted_desc key l) = with_key key m l.
Proof.
  induction l as [|x l IH]; simpl; [reflexivity|].
  rewrite insert_desc_stable. unfold with_key in *. simpl. now rewrite IH.
Qed.

End SortedFacts.

(** ** Rounding *)

Lemma round_half_even_near (x : Q) :
  Qabs (inject_Z (PyNum.round_half_even x) - x) <= 1 # 2.
Proof.
  unfold PyNum.round_half_even.
  pose proof (Qfloor_le x) as Hlo. pose proof (Qlt_floor x) as Hhi.
  rewrite inject_Z_plus in Hhi. change (inject_Z 1) with 1 in Hhi.
  apply Qabs_Qle_condition.
  destruct (x - inject_Z (Qfloor x) ?= 1 # 2) eqn:E.
  - apply Qeq_alt in E. destruct (Z.even (Qfloor x)).
    + split; lra.
    + rewrite inject_Z_plus. change (inject_Z 1) with 1. split; lra.
  - apply Qlt_alt in E. split; lra.
  - apply Qgt_alt in E. rewrite inject_Z_plus. change (inject_Z 1) with 1. split; lra.
Qed.

(** [round(x, n)] is a multiple of [10^-n] at most half a unit of the last
    place away from [x]. *)
Lemma round_near (x : Q) (n : nat) :
  Qabs (PyNum.round x n - x) <= (1 # 2) / inject_Z (10 ^ Z.of_nat n).
Proof.
  unfold PyNum.round.
  set (p := inject_Z (10 ^ Z.of_nat n)).
  assert (Hp : 0 < p).
  { unfold p. rewrite <- (Zlt_Qlt 0). apply Z.pow_pos_nonneg; lia. }
  pose proof (round_half_even_near (x * p)) as H.
  set (z := inject_Z (PyNum.round_half_even (x * p))) in *.
  assert (E : z / p - x == (z - x * p) / p) by (field; lra).
  rewrite E. unfold Qdiv. rewrite Qabs_Qmult.
  rewrite (Qabs_pos (/ p)) by (apply Qlt_le_weak, Qinv_lt_0_compat, Hp).
  apply Qmult_le_compat_r; [exact H|].
  apply Qlt_le_weak, Qinv_lt_0_compat, Hp.
Qed.

Example round_ties_to_even :
  PyNum.round (5 # 100000) 4 == 0 /\ PyNum.round (15 # 100000) 4 == 2 # 10000.
Proof. split; reflexivity. Qed.

(** ** Rounding keeps a percentage a percentage *)

Lemma round_half_even_lower (x : Q) (a : Z) :
  inject_Z a <= x -> (a <= PyNum.round_half_even x)%Z.
Proof.
  intros H. unfold PyNum.round_half_even.
  assert (Hf : (a <= Qfloor x)%Z).
  { rewrite <- (Qfloor_Z a). now apply Qfloor_resp_le. }
  destruct (x - inject_Z (Qfloor x) ?= 1 # 2); [destruct (Z.even (Qfloor x))| |]; lia.
Qed.

Lemma round_half_even_upper (x : Q) (b : Z) :
  x <= inject_Z b -> (PyNum.round_half_even x <= b)%Z.
Proof.
  intros H. unfold PyNum.round_half_even.
  assert (Hf : (Qfloor x <= b)%Z).
  { rewrite <- (Qfloor_Z b). now apply Qfloor_resp_le. }
  destruct (Z.eq_dec (Qfloor x) b) as [E|E].
  - assert (Hx : x - inject_Z (Qfloor x) <= 0) by (rewrite E; lra).
    destruct (x - inject_Z (Qfloor x) ?= 1 # 2) eqn:C.
    + apply Qeq_alt in C. lra.
    + lia.
    + apply Qgt_alt in C. lra.
  - destruct (x - inject_Z (Qfloor x) ?= 1 # 2); [destruct (Z.even (Qfloor x))| |]; lia.
Qed.

Lemma round_percent (x : Q) : 0 <= x <= 100 -> 0 <= PyNum.round x 2 <= 100.
Proof.
  intros [Hlo Hhi]. unfold PyNum.round.
  change (inject_Z (10 ^ Z.of_nat 2)) with 100.
  pose proof (round_half_even_lower (x * 100) 0) as L.
  pose proof (round_half_even_upper (x * 100) 10000) as U.
  assert (HL : (0 <= PyNum.round_half_even (x * 100))%Z).
  { apply L. change (inject_Z 0) with 0. lra. }
  assert (HU : (PyNum.round_half_even (x * 100) <= 10000)%Z).
  { apply U. change (inject_Z 10000) with 10000. lra. }
  rewrite Zle_Qle in HL, HU.
  change (inject_Z 0) with 0 in HL. change (inject_Z 10000) with 10000 in HU.
  set (z := inject_Z (PyNum.round_half_even (x * 100))) in *.
  split.
  - apply Qle_shift_div_l; lra.
  - apply Qle_shift_div_r; lra.
Qed.

(** ** The nearest binary64 value *)

Lemma pow2_pos (z : Z) : 0 < 2 ^ z.
Proof. now apply Qpower_0_lt. Qed.

Lemma pow2_Z (n : Z) : (0 <= n)%Z -> 2 ^ n == inject_Z (2 ^ n).
Proof. intros H. now rewrite Zpower_Qpower. Qed.

Lemma ilog2_lower (x : Q) : 0 < x -> 2 ^ PyNum.ilog2 x <= x.
Proof.
  intros Hx. unfold PyNum.ilog2.
  destruct (Qle_bool (2 ^ (Z.log2 (Qnum x) - Z.log2 (Z.pos (Qden x)))) x) eqn:E.
  - now apply Qle_bool_iff.
  - clear E. destruct x as [n d]. cbn [Qnum Qden].
    assert (Hn : (0 < n)%Z) by (unfold Qlt in Hx; cbn in Hx; lia).
    pose proof (Z.log2_spec n Hn) as [Hn1 _].
    pose proof (Z.log2_spec (Z.pos d) (Pos2Z.is_pos d)) as [_ Hd2].
    pose proof (Z.log2_nonneg n) as Hln.
    pose proof (Z.log2_nonneg (Z.pos d)) as Hld.
    set (ln := Z.log2 n) in *. set (ld := Z.log2 (Z.pos d)) in *.
    replace (ln - ld - 1)%Z with (ln - (ld + 1))%Z by lia.
    rewrite Qpower_minus by easy.
    rewrite (pow2_Z ln), (pow2_Z (ld + 1)) by lia.
    rewrite (Qmake_Qdiv n d).
    replace (Z.succ ld) with (ld + 1)%Z in Hd2 by lia.
    rewrite Zle_Qle in Hn1. rewrite Zlt_Qlt in Hd2, Hn.
    assert (Hdpos : 0 < inject_Z (Z.pos d)) by (rewrite <- (Zlt_Qlt 0); lia).
    change (inject_Z 0) with 0 in Hn.
    set (A := inject_Z (2 ^ ln)) in *. set (B := inject_Z (2 ^ (ld + 1))) in *.
    set (N := inject_Z n) in *. set (D := inject_Z (Z.pos d)) in *.
    assert (HB : 0 < B) by lra.
    apply Qle_shift_div_l; [exact Hdpos|].
    assert (E : A / B * D == A * D / B) by (field; lra). rewrite E.
    apply Qle_shift_div_r; [exact HB|].
    assert (A * D <= N * D) by (apply Qmult_le_compat_r; lra).
    assert (N * D <= N * B) by (apply Qmult_le_l; lra).
    lra.
Qed.

Lemma nearest_pos (x : Q) : 0 < x -> 0 < PyNum.nearest x.
Proof.
  intros Hx. unfold PyNum.nearest. set (e := (PyNum.ilog2 x - 52)%Z).
  pose proof (pow2_pos e) as He.
  assert (Hm : (1 <= PyNum.round_half_even (x / 2 ^ e))%Z).
  { apply round_half_even_lower. change (inject_Z 1) with 1.
    apply Qle_shift_div_l; [exact He|]. rewrite Qmult_1_l.
    apply Qle_trans with (2 ^ PyNum.ilog2 x); [|now apply ilog2_lower].
    apply Qpower_le_compat_l; [unfold e; lia|lra]. }
  rewrite Zle_Qle in Hm. change (inject_Z 1) with 1 in Hm.
  apply Qmult_lt_0_compat; lra.
Qed.

Lemma nearest_upper (x : Q) (b : Z) :
  0 < x -> (b < 2 ^ 53)%Z -> x <= inject_Z b -> PyNum.nearest x <= inject_Z b.
Proof.
  intros Hx Hb Hxb. unfold PyNum.nearest. set (e := (PyNum.ilog2 x - 52)%Z).
  pose proof (pow2_pos e) as He.
  assert (Hneg : (e <= 0)%Z).
  { assert (H : 2 ^ PyNum.ilog2 x < 2 ^ 53).
    { apply Qle_lt_trans with x; [now apply ilog2_lower|].
      apply Qle_lt_trans with (inject_Z b); [exact Hxb|].
      rewrite (pow2_Z 53) by lia. now rewrite <- Zlt_Qlt. }
    apply Qpower_lt_compat_l_inv in H; [unfold e; lia|lra]. }
  assert (Hinv : / 2 ^ e == inject_Z (2 ^ (- e))).
  { rewrite <- Qpower_opp. apply pow2_Z. lia. }
  assert (Hm : (PyNum.round_half_even (x / 2 ^ e) <= b * 2 ^ (- e))%Z).
  { apply round_half_even_upper. rewrite inject_Z_mult, <- Hinv.
    unfold Qdiv. apply Qmult_le_compat_r; [exact Hxb|].
    apply Qlt_le_weak, Qinv_lt_0_compat, He. }
  rewrite Zle_Qle, inject_Z_mult, <- Hinv in Hm.
  set (m := inject_Z (PyNum.round_half_even (x / 2 ^ e))) in *.
  assert (E : inject_Z b == inject_Z b * / 2 ^ e * 2 ^ e) by (field; lra).
  rewrite E. apply Qmult_le_compat_r; lra.
Qed.

Lemma fl_nonneg (x : Q) : 0 <= x -> 0 <= PyNum.fl x.
Proof.
  intros H. unfold PyNum.fl. destruct (Qcompare_spec x 0) as [C|C|C].
  - lra.
  - lra.
  - apply Qlt_le_weak. now apply nearest_pos.
Qed.

Lemma fl_pos (x : Q) : 0 < x -> 0 < PyNum.fl x.
Proof.
  intros H. unfold PyNum.fl. destruct (Qcompare_spec x 0) as [C|C|C].
  - lra.
  - lra.
  - now apply nearest_pos.
Qed.

Lemma fl_upper (x : Q) (b : Z) :
  (0 <= b < 2 ^ 53)%Z -> x <= inject_Z b -> PyNum.fl x <= inject_Z b.
Proof.
  intros [Hb0 Hb] H. rewrite Zle_Qle in Hb0. change (inject_Z 0) with 0 in Hb0.
  unfold PyNum.fl. destruct (Qcompare_spec x 0) as [C|C|C].
  - exact Hb0.
  - assert (0 < PyNum.nearest (- x)) by (apply nearest_pos; lra). lra.
  - now apply nearest_upper.
Qed.

(** The code's [approved / total * 100], before [round]. *)
Lemma rate_percent (a t : Z) :
  (0 <= a <= t)%Z -> (0 < t)%Z ->
  0 <= PyNum.fl (PyNum.fl (inject_Z a / inject_Z t) * 100) <= 100.
Proof.
  intros [Ha Hat] Ht.
  rewrite Zle_Qle in Ha, Hat. rewrite Zlt_Qlt in Ht.
  change (inject_Z 0) with 0 in Ha, Ht.
  set (qa := inject_Z a) in *. set (qt := inject_Z t) in *.
  assert (H0 : 0 <= qa / qt) by (apply Qle_shift_div_l; lra).
  assert (H1 : qa / qt <= inject_Z 1).
  { change (inject_Z 1) with 1. apply Qle_shift_div_r; lra. }
  pose proof (fl_nonneg _ H0) as F0.
  pose proof (fl_upper _ 1 ltac:(lia) H1) as F1. change (inject_Z 1) with 1 in F1.
  split.
  - apply fl_nonneg. lra.
  - apply (fl_upper _ 100); [lia|]. change (inject_Z 100) with 100. lra.
Qed.

(** 23 approved of 160: the product is just below 14.375 in binary64, and
    the rate is 14.37, not the 14.38 of the exact quotient; likewise 49 of
    160 give 30.63. *)
Example rate_in_binary64 :
  PyNum.round (PyNum.fl (PyNum.fl (23 / 160) * 100)) 2 == 1437 # 100 /\
  PyNum.round (23 / 160 * 100) 2 == 1438 # 100 /\
  PyNum.round (PyNum.fl (PyNum.fl (49 / 160) * 100)) 2 == 3063 # 100.
Proof. repeat split; vm_compute; reflexivity. Qed.

(** 0.1 + 0.2 in binary64. *)
Example one_tenth_plus_two_tenths :
  PyNum.fl (PyNum.fl (1 # 10) + PyNum.fl (2 # 10))
  == 1351079888211149 # 4503599627370496.
Proof. vm_compute. reflexivity. Qed.

(** ** Each endpoint performs the row-level steps *)

(** Case analysis on the first computation of a chain of [bind]s. *)
Ltac head_of c :=
  lazymatch c with
  | bind ?c' _ => head_of c'
  | (if ?b then _ else _) => destruct b
  | _ => destruct c eqn:?
  end.

Ltac step_bind :=
  match goal with
  | |- bind ?c _ = _ => head_of c; cbn [bind]; try reflexivity
  end.

Section Factored.
Variable g : Globals.
Variables (m : Collab.Model) (p : Collab.Preprocessor).

Lemma factor_of_eq (l : list (string * Q)) :
  map (fun fc : string * Q =>
         let (feat, contrib) := fc in
         {| feature := feat;
            contribution := PyNum.round contrib 4;
            impact := if PyNum.gtb contrib 0
                      then "Positive"%string else "Negative"%string |}) l
  = map Row.factor_of l.
Proof. apply map_ext. now intros [feat contrib]. Qed.

Lemma predict_try_factored (application : LoanApplication) :
  App.predict_try g m p application
  = x <- Row.explain_row g m p application ;; ret (Row.to_prediction x).
Proof.
  unfold App.predict_try, Row.explain_row, Row.select_slice.
  repeat step_bind.
  all: unfold ret, Row.to_prediction, Row.rank5, Row.ranking, Row.label_of.
  all: cbn [bind Row.label Row.proba Row.attribution].
  all: now rewrite factor_of_eq.
Qed.

Lemma batch_loop_cons (idx : Z) (application : LoanApplication)
    (rest : list LoanApplication) (results : list Batch.Row) :
  App.batch_loop g m p idx (application :: rest) results
  = x <- Row.explain_row g m p application ;;
    App.batch_loop g m p (idx + 1) rest (results ++ [Row.to_batch_row idx x]).
Proof.
  cbn [App.batch_loop].
  unfold Row.explain_row, Row.select_slice.
  repeat step_bind.
  all: unfold ret, Row.to_batch_row, Row.rank5, Row.ranking, Row.label_of.
  all: cbn [bind Row.label Row.proba Row.attribution].
  all: now rewrite factor_of_eq.
Qed.

End Factored.

(** ** What a response of [predict] is made of *)

Lemma predict_ok_inv (g : Globals) (application : LoanApplication) (r : Prediction) :
  App.predict g application = inr r ->
  exists m p x,
    model g = Some m /\ preprocessor g = Some p /\
    Row.explain_row g m p application = inr x /\ r = Row.to_prediction x.
Proof.
  unfold App.predict.
  destruct (model g) as [m|]; [|discriminate].
  destruct (preprocessor g) as [p|]; [|discriminate].
  rewrite predict_try_factored.
  destruct (Row.explain_row g m p application) as [e|x] eqn:Hx;
    cbn [bind ret]; [discriminate|].
  intros [= <-]. now exists m, p, x.
Qed.

Lemma predict_of_explained (g : Globals) (m : Collab.Model) (p : Collab.Preprocessor)
    (application : LoanApplication) (x : Row.Explained) :
  model g = Some m -> preprocessor g = Some p ->
  Row.explain_row g m p application = inr x ->
  App.predict g application = inr (Row.to_prediction x).
Proof.
  intros Hm Hp Hx. unfold App.predict. rewrite Hm, Hp, predict_try_factored, Hx.
  reflexivity.
Qed.

(** ** Ranking *)

Lemma ranking_ranks (k : nat) (d : PyDict.dict Q) :
  Spec.ranks_top k d (map Row.factor_of (firstn k (Row.ranking d))).
Proof.
  exists (Row.ranking d). unfold Row.ranking, Spec.magnitude.
  split; [apply sorted_desc_perm|].
  split; [apply (sorted_desc_sorted (fun x : string * Q => Qabs (snd x)))|].
  split; [intros m; apply (sorted_desc_stable (fun x : string * Q => Qabs (snd x)))|].
  split; rewrite map_map; reflexivity.
Qed.

(** C1 (as amended): the factors of a response are the first 5 items of
    the response's attribution mapping in descending order of unrounded
    absolute contribution, equal magnitudes in the iteration order of the
    mapping, each contribution rounded to 4 places after the order is
    fixed.  The number 5 is written into the slice; the endpoint has no
    parameter k. *)
Theorem predict_top_factors_ranked (g : Globals) (application : LoanApplication)
    (r : Prediction) :
  App.predict g application = inr r ->
  Spec.ranks_top 5 (shap_contributions r) (top_factors r).
Proof.
  intros H. apply predict_ok_inv in H as (m & p & x & _ & _ & _ & ->).
  apply ranking_ranks.
Qed.

Lemma predict_top_factors_ranked_witness :
  exists r, App.predict Example.six Example.application = inr r /\
            Spec.ranks_top 5 (shap_contributions r) (top_factors r).
Proof.
  eexists. split; [reflexivity|].
  apply (predict_top_factors_ranked Example.six Example.application).
  reflexivity.
Defined.

(** The ranking-order example of the specification: F, B, A, C, D; E is
    left out as sixth. *)
Example ranking_order_example :
  exists r, App.predict Example.six Example.application = inr r /\
            map feature (top_factors r) = ["F"; "B"; "A"; "C"; "D"]%string.
Proof. eexists. split; reflexivity. Qed.

(** C1 (as stated) fails for k = 1: on the six-feature example the
    endpoint answers five factors, not the first one only. *)
Lemma ranks_top_1_counterexample :
  exists r, App.predict Example.six Example.application = inr r /\
            ~ Spec.ranks_top 1 (shap_contributions r) (top_factors r).
Proof.
  eexists. split; [reflexivity|].
  intros (ranked & _ & _ & _ & Hf & _).
  apply (f_equal (@List.length string)) in Hf.
  rewrite !length_map, length_firstn in Hf.
  change (List.length (top_factors _)) with 5%nat in Hf. lia.
Qed.

(** Ranking compares the unrounded values: both contributions are
    displayed as 0, and B, the larger, comes first. *)
Example ranking_before_rounding :
  map feature (Row.rank5 [("A"%string, 3 # 100000); ("B"%string, 4 # 100000)])
  = ["B"; "A"]%string /\
  Forall (fun f => contribution f == 0)
         (Row.rank5 [("A"%string, 3 # 100000); ("B"%string, 4 # 100000)]).
Proof. split; [reflexivity|]. repeat constructor. Qed.

(** Equal magnitudes stay in the order of the mapping. *)
Example ranking_ties_in_mapping_order :
  map feature (Row.rank5 [("A"%string, 1 # 2); ("B"%string, -1 # 2);
                          ("C"%string, 9 # 10); ("D"%string, 1 # 2)])
  = ["C"; "A"; "B"; "D"]%string.
Proof. reflexivity. Qed.

(** ** Impact labels *)

Lemma in_ranking (d : PyDict.dict Q) (k : nat) (fc : string * Q) :
  In fc (firstn k (Row.ranking d)) -> In fc (PyDict.items d).
Proof.
  intros H.
  apply (Permutation_in _ (sorted_desc_perm (fun x : string * Q => Qabs (snd x)) d)).
  change (In fc (Row.ranking d)). rewrite <- (firstn_skipn k (Row.ranking d)).
  apply in_or_app. now left.
Qed.

Lemma factor_of_impact (fc : string * Q) :
  (impact (Row.factor_of fc) = "Positive"%string <-> 0 < snd fc) /\
  (impact (Row.factor_of fc) = "Negative"%string <-> ~ 0 < snd fc).
Proof.
  unfold Row.factor_of. cbn [impact].
  destruct (PyNum.gtb (snd fc) 0) eqn:E.
  - apply gtb_true in E. split; split; intros H; try easy; try (now elim H).
  - apply gtb_false in E. split; split; intros H; try easy;
      try (exfalso; exact (Qlt_not_le _ _ H E));
      try (intros H'; exact (Qlt_not_le _ _ H' E)).
Qed.

(** C4: every factor of a response displays an item [(feature, c)] of the
    attribution mapping and is labelled "Positive" exactly when the
    (unrounded) contribution [c] is greater than 0, "Negative" otherwise;
    a contribution equal to 0 is labelled "Negative". *)
Theorem impact_label_sign (g : Globals) (application : LoanApplication)
    (r : Prediction) :
  App.predict g application = inr r ->
  Forall (fun f =>
            exists c, In (feature f, c) (PyDict.items (shap_contributions r)) /\
                      contribution f = PyNum.round c 4 /\
                      (impact f = "Positive"%string <-> 0 < c) /\
                      (impact f = "Negative"%string <-> ~ 0 < c) /\
                      (c == 0 -> impact f = "Negative"%string))
         (top_factors r).
Proof.
  intros H. apply predict_ok_inv in H as (m & p & x & _ & _ & _ & ->).
  cbn [Row.to_prediction top_factors shap_contributions]. unfold Row.rank5.
  apply Forall_map, Forall_forall. intros [feat c] Hin.
  exists c. split; [exact (in_ranking _ _ _ Hin)|].
  split; [reflexivity|].
  destruct (factor_of_impact (feat, c)) as [Hp Hn].
  repeat split; try apply Hp; try apply Hn.
  intros Hz. apply Hn. cbn [snd]. rewrite Hz. apply Qlt_irrefl.
Qed.

Lemma impact_label_sign_witness :
  exists r, App.predict Example.three Example.application = inr r /\
            map impact (top_factors r) = ["Negative"; "Positive"; "Negative"]%string /\
            Forall (fun f =>
                      exists c, In (feature f, c) (PyDict.items (shap_contributions r)) /\
                                contribution f = PyNum.round c 4 /\
                                (impact f = "Positive"%string <-> 0 < c) /\
                                (impact f = "Negative"%string <-> ~ 0 < c) /\
                                (c == 0 -> impact f = "Negative"%string))
                   (top_factors r).
Proof.
  eexists. split; [reflexivity|]. split; [reflexivity|].
  apply (impact_label_sign Example.three Example.application).
  reflexivity.
Defined.

(** The label is decided on the unrounded value: a contribution that is
    displayed as 0 can be labelled "Positive". *)
Example tiny_positive_displayed_as_zero :
  contribution (Row.factor_of ("A"%string, 1 # 100000)) == 0 /\
  impact (Row.factor_of ("A"%string, 1 # 100000)) = "Positive"%string.
Proof. split; reflexivity. Qed.

(** ** No k, no InvalidK *)

Lemma rank5_length (d : PyDict.dict Q) :
  List.length (Row.rank5 d) = Nat.min 5 (List.length d).
Proof.
  unfold Row.rank5, Row.ranking.
  now rewrite length_map, length_firstn, sorted_desc_length.
Qed.

Lemma rank5_all (d : PyDict.dict Q) :
  (List.length d <= 5)%nat ->
  Permutation (map feature (Row.rank5 d)) (PyDict.keys d).
Proof.
  intros H. unfold Row.rank5, Row.ranking, PyDict.keys, PyDict.items.
  rewrite firstn_all2 by (now rewrite sorted_desc_length).
  rewrite map_map. cbn [Row.factor_of feature].
  apply Permutation_map, sorted_desc_perm.
Qed.

(** C5 (as amended): the ranking has no parameter k and no failure of its
    own: once the attribution mapping of a row is computed the endpoint
    answers, with [min 5 n] factors for [n] features; with at most 5
    features the factors are exactly all the features, without padding. *)
Theorem rank_total_no_padding (g : Globals) (m : Collab.Model)
    (p : Collab.Preprocessor) (application : LoanApplication) (x : Row.Explained) :
  model g = Some m -> preprocessor g = Some p ->
  Row.explain_row g m p application = inr x ->
  exists r, App.predict g application = inr r /\
            shap_contributions r = Row.attribution x /\
            List.length (top_factors r) = Nat.min 5 (List.length (Row.attribution x)) /\
            ((List.length (Row.attribution x) <= 5)%nat ->
             List.length (top_factors r) = List.length (Row.attribution x) /\
             Permutation (map feature (top_factors r))
                         (PyDict.keys (Row.attribution x))).
Proof.
  intros Hm Hp Hx. exists (Row.to_prediction x).
  split; [now apply predict_of_explained with m p|].
  split; [reflexivity|]. cbn [Row.to_prediction top_factors].
  split; [apply rank5_length|].
  intros Hn. split; [rewrite rank5_length; lia|now apply rank5_all].
Qed.

Lemma rank_total_no_padding_witness :
  exists r, App.predict Example.three Example.application = inr r /\
            List.length (top_factors r) = 3%nat.
Proof.
  destruct (rank_total_no_padding Example.three _ _ Example.application _
              eq_refl eq_refl eq_refl) as (r & Hr & _ & Hn & _).
  exists r. split; [exact Hr|exact Hn].
Defined.

(** C5 (as stated) fails for k = 0 and k = -1: the contract asks for
    [InvalidK], the endpoint has ranked the three features. *)
Lemma rank_contract_nonpositive_k_counterexample :
  exists r, App.predict Example.three Example.application = inr r /\
            List.length (top_factors r) = 3%nat /\
            ~ Spec.rank_contract 0 (shap_contributions r) (Spec.Ranked (top_factors r)) /\
            ~ Spec.rank_contract (-1) (shap_contributions r) (Spec.Ranked (top_factors r)).
Proof.
  eexists. split; [reflexivity|]. split; [reflexivity|].
  split; intros [H _]; discriminate H; lia.
Qed.

(** ** Dictionaries built from distinct keys *)

Section DictFacts.
Context {V : Type}.

Lemma setitem_fresh (k : string) (v : V) (d : PyDict.dict V) :
  ~ In k (PyDict.keys d) -> PyDict.setitem k v d = d ++ [(k, v)].
Proof.
  induction d as [|[k' v'] d IH]; cbn; [reflexivity|].
  intros H. destruct (String.eqb_spec k' k) as [->|_].
  - elim H. now left.
  - f_equal. apply IH. intros Hin. apply H. now right.
Qed.

Lemma fold_setitem_distinct (ps : list (string * V)) (acc : PyDict.dict V) :
  NoDup (PyDict.keys (acc ++ ps)) ->
  fold_left (fun d kv => PyDict.setitem (fst kv) (snd kv) d) ps acc = acc ++ ps.
Proof.
  revert acc. induction ps as [|[k v] ps IH]; intros acc H; cbn.
  - now rewrite app_nil_r.
  - assert (E : acc ++ (k, v) :: ps = (acc ++ [(k, v)]) ++ ps)
      by now rewrite <- app_assoc.
    rewrite E in H |- *.
    rewrite setitem_fresh.
    + now apply IH.
    + unfold PyDict.keys in *. rewrite !map_app in H.
      apply NoDup_app_remove_r in H. cbn in H.
      apply NoDup_remove_2 in H. now rewrite app_nil_r in H.
Qed.

Lemma of_pairs_distinct (ps : list (string * V)) :
  NoDup (map fst ps) -> PyDict.of_pairs ps = ps.
Proof. intros H. unfold PyDict.of_pairs. now rewrite fold_setitem_distinct. Qed.

End DictFacts.

Lemma NoDup_firstn {A : Type} (n : nat) (l : list A) :
  NoDup l -> NoDup (firstn n l).
Proof.
  intros H. rewrite <- (firstn_skipn n l) in H. now apply NoDup_app_remove_r in H.
Qed.

Lemma combine_keys {B : Type} (names : list string) (xs : list B) :
  map fst (combine names xs) = firstn (List.length xs) names.
Proof.
  revert xs. induction names as [|n names IH]; intros [|x xs]; cbn; try reflexivity.
  now rewrite IH.
Qed.

Lemma combine_values {B : Type} (names : list string) (xs : list B) :
  map snd (combine names xs) = firstn (List.length names) xs.
Proof.
  revert xs. induction names as [|n names IH]; intros [|x xs]; cbn; try reflexivity.
  now rewrite IH.
Qed.

Lemma NoDup_combine_keys {B : Type} (names : list string) (xs : list B) :
  NoDup names -> NoDup (map fst (combine names xs)).
Proof. intros H. rewrite combine_keys. now apply NoDup_firstn. Qed.

(** The comprehension converts the zipped values in order. *)
Lemma mapM_float_combine (names : list string) (vs : list ndarray)
    (kvs : list (string * Q)) :
  mapM (fun kv : string * ndarray => x <- float (snd kv) ;; ret (fst kv, x))
       (combine names vs) = inr kvs ->
  map fst kvs = map fst (combine names vs) /\
  mapM float (map snd (combine names vs)) = inr (map snd kvs).
Proof.
  revert kvs. induction (combine names vs) as [|[k v] l IH]; intros kvs; cbn.
  - intros [= <-]. now split.
  - destruct (float v) as [e|x]; cbn; [discriminate|].
    destruct (mapM _ l) as [e|kvs'] eqn:E; cbn; [discriminate|].
    intros [= <-]. destruct (IH kvs' eq_refl) as [IH1 IH2].
    cbn. rewrite IH1, IH2. now split.
Qed.

Lemma mapM_float_scalars (xs : list Q) : mapM float (map Scalar xs) = inr xs.
Proof. induction xs as [|x xs IH]; cbn; [reflexivity|]. now rewrite IH. Qed.

(** With distinct names the mapping is the zip itself: the names in their
    order, each with the value at its position. *)
Lemma contribution_dict_distinct (names : list string) (vs : list ndarray)
    (d : PyDict.dict Q) :
  NoDup names ->
  App.contribution_dict names (Array vs) = inr d ->
  PyDict.keys d = firstn (List.length vs) names /\
  mapM float (firstn (List.length names) vs) = inr (PyDict.values d).
Proof.
  intros Hnd. unfold App.contribution_dict. cbn [iter bind ret].
  destruct (mapM _ (combine names vs)) as [e|kvs] eqn:E; cbn [bind]; [discriminate|].
  intros [= <-].
  destruct (mapM_float_combine _ _ _ E) as [Hk Hv].
  rewrite of_pairs_distinct by (rewrite Hk; now apply NoDup_combine_keys).
  unfold PyDict.keys, PyDict.values.
  now rewrite Hk, combine_keys, <- Hv, combine_values.
Qed.

(** ** The attribution of a row *)

Lemma explain_row_inv (g : Globals) (m : Collab.Model) (p : Collab.Preprocessor)
    (application : LoanApplication) (x : Row.Explained) :
  Row.explain_row g m p application = inr x ->
  exists t, Row.explains g m p application t x.
Proof.
  unfold Row.explain_row, Row.explains, App.attr.
  destruct (Collab.transform p [application]) as [e|processed] eqn:Et; cbn [bind]; [discriminate|].
  destruct (Collab.predict m processed) as [e|labels] eqn:Ep; cbn [bind]; [discriminate|].
  destruct (list_getitem labels 0) as [e|prediction] eqn:El; cbn [bind]; [discriminate|].
  destruct (Collab.predict_proba m processed) as [e|probas] eqn:Epp; cbn [bind]; [discriminate|].
  destruct (list_getitem probas 0) as [e|proba0] eqn:E0; cbn [bind]; [discriminate|].
  destruct (list_getitem proba0 1) as [e|probability] eqn:E1; cbn [bind]; [discriminate|].
  destruct (explainer g) as [ex|] eqn:Eex; cbn [bind raise ret]; [|discriminate].
  destruct (Collab.shap_values ex processed) as [e|sv] eqn:Es; cbn [bind]; [discriminate|].
  destruct (App.stored_feature_names g p) as [e|names] eqn:En; cbn [bind]; [discriminate|].
  destruct (Row.select_slice sv) as [e|slice] eqn:Ese; cbn [bind]; [discriminate|].
  destruct (App.contribution_dict names slice) as [e|d] eqn:Ed; cbn [bind]; [discriminate|].
  intros [= <-].
  exists {| Row.processed := processed; Row.shap := sv;
            Row.names := names; Row.slice := slice |}.
  cbn. repeat split; eauto.
Qed.

(** The trace of a successful [predict], pinned to what the collaborators
    are known to answer. *)
Lemma predict_trace (g : Globals) (application : LoanApplication) (r : Prediction)
    (p : Collab.Preprocessor) (ex : Collab.Explainer)
    (processed sv : ndarray) (names : list string) :
  App.predict g application = inr r ->
  preprocessor g = Some p -> explainer g = Some ex ->
  Collab.transform p [application] = inr processed ->
  Collab.shap_values ex processed = inr sv ->
  App.stored_feature_names g p = inr names ->
  exists slice, Row.select_slice sv = inr slice /\
                App.contribution_dict names slice = inr (shap_contributions r).
Proof.
  intros H Hp Hex Ht Hs Hn.
  apply predict_ok_inv in H as (m & p' & x & _ & Hp' & Hx & ->).
  assert (p' = p) as -> by congruence.
  apply explain_row_inv in Hx as (t & Ht' & _ & _ & (ex' & Hex' & Hs') & Hn' & Hsl & Hd).
  assert (ex' = ex) as -> by congruence.
  assert (Row.processed t = processed) as E1 by congruence. rewrite E1 in *.
  assert (Row.shap t = sv) as E2 by congruence. rewrite E2 in *.
  assert (Row.names t = names) as E3 by congruence. rewrite E3 in *.
  exists (Row.slice t). now split.
Qed.

(** ** [get_feature_contributions] *)

Lemma getitem_array1 (xs : list Q) (i : nat) (x : Q) :
  nth_error xs i = Some x -> getitem (array1 xs) i = inr (Scalar x).
Proof.
  intros H. unfold array1, getitem, list_getitem.
  now rewrite nth_error_map, H.
Qed.

Lemma skipn_nth_error {A : Type} (l : list A) (i : nat) (x : A) :
  nth_error l i = Some x -> skipn i l = x :: skipn (S i) l.
Proof.
  revert i. induction l as [|y l IH]; intros [|i]; cbn; try discriminate.
  - now intros [= ->].
  - intros H. now rewrite (IH i H).
Qed.

Lemma fill_scalars (xs : list Q) (rest : list ndarray) (names : list string) :
  forall (i : nat) (acc : PyDict.dict Q),
    (i + List.length names <= List.length xs)%nat ->
    ModelExplainer.fill (Array (array1 xs :: rest)) i names acc
    = inr (fold_left (fun d kv => PyDict.setitem (fst kv) (snd kv) d)
                     (combine names (skipn i xs)) acc).
Proof.
  induction names as [|n names IH]; intros i acc Hlen; cbn [ModelExplainer.fill].
  - reflexivity.
  - cbn in Hlen.
    destruct (nth_error xs i) as [x|] eqn:Ex.
    2:{ apply nth_error_None in Ex. lia. }
    cbn [getitem list_getitem nth_error ret bind].
    rewrite (getitem_array1 _ _ _ Ex). cbn [bind float ret].
    rewrite IH by lia. now rewrite (skipn_nth_error _ _ _ Ex).
Qed.

Lemma get_feature_contributions_sorted (self : ModelExplainer.t) (X : ndarray)
    (xs : list Q) (rest : list ndarray) :
  NoDup (ModelExplainer.feature_names self) ->
  (List.length (ModelExplainer.feature_names self) <= List.length xs)%nat ->
  Collab.shap_values (ModelExplainer.explainer self)
    (if Nat.eqb (ndim X) 1 then Array [X] else X) = inr (Array (array1 xs :: rest)) ->
  ModelExplainer.get_feature_contributions self X
  = inr (Row.ranking (combine (ModelExplainer.feature_names self) xs)).
Proof.
  intros Hnd Hlen Hs. unfold ModelExplainer.get_feature_contributions.
  rewrite Hs. cbn [bind]. rewrite fill_scalars by (cbn; lia). cbn [skipn bind ret].
  fold (PyDict.of_pairs (combine (ModelExplainer.feature_names self) xs)).
  rewrite (of_pairs_distinct (combine (ModelExplainer.feature_names self) xs))
    by now apply NoDup_combine_keys.
  rewrite of_pairs_distinct; [reflexivity|].
  unfold PyDict.items.
  eapply Permutation_NoDup; [|exact (NoDup_combine_keys _ xs Hnd)].
  apply Permutation_map, Permutation_sym, sorted_desc_perm.
Qed.

(** ** The raw attribution mapping *)

Lemma contribution_pairs (names : list string) (xs : list Q) :
  mapM (fun kv : string * ndarray => x <- float (snd kv) ;; ret (fst kv, x))
       (combine names (map Scalar xs)) = inr (combine names xs).
Proof.
  revert xs. induction names as [|n names IH]; intros [|x xs]; cbn; try reflexivity.
  now rewrite IH.
Qed.

Lemma contribution_dict_scalars (names : list string) (xs : list Q) :
  NoDup names ->
  App.contribution_dict names (array1 xs) = inr (combine names xs).
Proof.
  intros Hnd. unfold App.contribution_dict, array1, iter.
  unfold bind at 1. unfold ret at 1. rewrite contribution_pairs.
  unfold bind, ret.
  now rewrite of_pairs_distinct by now apply NoDup_combine_keys.
Qed.

Ltac distinct_names :=
  repeat (constructor; [cbn; intuition congruence|]); constructor.

(** C3 (as amended): with distinct feature names and one value per name,
    the mapping of a [predict] response has exactly the feature names as
    keys, in feature-vector order, each with its value (a 0 included);
    the mapping of [get_feature_contributions] holds the same entries, a 0
    included, but in descending order of absolute contribution, equal
    magnitudes in feature-vector order. *)
Theorem raw_attribution_order (names : list string) (xs : list Q) :
  NoDup names -> List.length names = List.length xs ->
  (forall g application r p ex processed sv,
     App.predict g application = inr r ->
     preprocessor g = Some p -> explainer g = Some ex ->
     Collab.transform p [application] = inr processed ->
     Collab.shap_values ex processed = inr sv ->
     App.stored_feature_names g p = inr names ->
     Row.select_slice sv = inr (array1 xs) ->
     PyDict.keys (shap_contributions r) = names /\
     PyDict.values (shap_contributions r) = xs) /\
  (forall self X rest,
     ModelExplainer.feature_names self = names ->
     Collab.shap_values (ModelExplainer.explainer self)
       (if Nat.eqb (ndim X) 1 then Array [X] else X)
     = inr (Array (array1 xs :: rest)) ->
     exists d, ModelExplainer.get_feature_contributions self X = inr d /\
               Permutation (PyDict.items d) (combine names xs) /\
               StronglySorted (ge_key Spec.magnitude) (PyDict.items d) /\
               (forall m, with_key Spec.magnitude m (PyDict.items d)
                          = with_key Spec.magnitude m (combine names xs))).
Proof.
  intros Hnd Hlen. split.
  - intros g application r p ex processed sv H Hp Hex Ht Hs Hn Hsl.
    destruct (predict_trace _ _ _ _ _ _ _ _ H Hp Hex Ht Hs Hn) as (slice & Hsl' & Hd).
    assert (slice = array1 xs) as -> by congruence.
    rewrite contribution_dict_scalars in Hd by assumption.
    injection Hd as <-. unfold PyDict.keys, PyDict.values.
    rewrite combine_keys, combine_values, <- Hlen, firstn_all.
    rewrite Hlen, firstn_all. now split.
  - intros self X rest Hnames Hs. subst names.
    exists (Row.ranking (combine (ModelExplainer.feature_names self) xs)).
    split; [apply (get_feature_contributions_sorted self X xs rest); auto; lia|].
    unfold Row.ranking, PyDict.items, Spec.magnitude.
    split; [apply sorted_desc_perm|].
    split; [apply (sorted_desc_sorted (fun x : string * Q => Qabs (snd x)))|].
    intros m. apply (sorted_desc_stable (fun x : string * Q => Qabs (snd x))).
Qed.

Lemma raw_attribution_order_witness :
  (exists r, App.predict Example.three Example.application = inr r /\
             PyDict.keys (shap_contributions r) = ["A"; "B"; "C"]%string /\
             PyDict.values (shap_contributions r) = [2 # 10; 0; -7 # 10]) /\
  (exists d, ModelExplainer.get_feature_contributions Example.explainer3 (Array [])
             = inr d /\
             Permutation (PyDict.items d)
               [("A"%string, 2 # 10); ("B"%string, 0); ("C"%string, -7 # 10)]).
Proof.
  destruct (raw_attribution_order ["A"; "B"; "C"]%string [2 # 10; 0; -7 # 10]
              ltac:(distinct_names) eq_refl) as [H1 H2].
  split.
  - eexists. split; [reflexivity|].
    eapply (H1 Example.three Example.application); reflexivity.
  - destruct (H2 Example.explainer3 (Array []) [] eq_refl eq_refl)
      as (d & Hd & Hperm & _).
    exists d. split; [exact Hd|exact Hperm].
Defined.

(** C3 (as stated) fails on [get_feature_contributions]: the keys come out
    in order of magnitude, C, A, B, not in feature-vector order A, B, C. *)
Lemma get_feature_contributions_order_counterexample :
  exists d, ModelExplainer.get_feature_contributions Example.explainer3 (Array [])
            = inr d /\
            PyDict.keys d = ["C"; "A"; "B"]%string /\
            PyDict.keys d <> ModelExplainer.feature_names Example.explainer3.
Proof. eexists. split; [reflexivity|]. split; [reflexivity|discriminate]. Qed.

(** ** Values shaped per class *)

Lemma list_getitem_beyond {A : Type} (x y : A) (i : nat) :
  list_getitem [x; y] (S (S i)) = inl IndexError.
Proof. unfold list_getitem. cbn. now rewrite nth_error_nil. Qed.

(** C7: on a 3-d answer the code zips the names with [shap_values[0][0]],
    the per-class values of the first feature.  With two features and two
    classes A is given A's value for class 0 and B is given A's value for
    class 1: the mapping is the per-feature contributions of no class,
    where the 2-d branch zips the names with one value per feature.  The
    batch loop does the same and ranks the same two values. *)
Theorem per_class_values_misread :
  exists r,
    App.predict Example.multi_output Example.application = inr r /\
    shap_contributions r = [("A"%string, -3 # 10); ("B"%string, 3 # 10)] /\
    (exists vs,
       Spec.class_values 1 Example.two_outputs = inr vs /\
       App.contribution_dict ["A"; "B"]%string (Array vs)
       = inr [("A"%string, 3 # 10); ("B"%string, -1 # 10)]) /\
    (forall c vs d,
       Spec.class_values c Example.two_outputs = inr vs ->
       App.contribution_dict ["A"; "B"]%string (Array vs) = inr d ->
       d <> shap_contributions r) /\
    (exists b row,
       App.batch_predict Example.multi_output [Example.application] = inr b /\
       Batch.predictions b = [row] /\
       map feature (Batch.top_factors row) = ["A"; "B"]%string /\
       Batch.top_factors row = top_factors r).
Proof.
  eexists. split; [reflexivity|]. split; [reflexivity|]. split; [|split].
  - eexists. split; reflexivity.
  - intros [|[|c]] vs d Hvs Hd.
    + cbv in Hvs. injection Hvs as <-. cbv in Hd. injection Hd as <-. discriminate.
    + cbv in Hvs. injection Hvs as <-. cbv in Hd. injection Hd as <-. discriminate.
    + unfold Spec.class_values, Example.two_outputs, array1 in Hvs.
      cbn [getitem list_getitem nth_error iter bind ret mapM map] in Hvs.
      rewrite list_getitem_beyond in Hvs. discriminate.
  - do 2 eexists. repeat split; reflexivity.
Qed.

(** ** A row the ensemble cannot handle *)

Section CollaboratorRaises.
Variable g : Globals.
Variables (m : Collab.Model) (p : Collab.Preprocessor) (ex : Collab.Explainer).
Variables (application : LoanApplication) (processed : ndarray).
Hypothesis Hm : model g = Some m.
Hypothesis Hp : preprocessor g = Some p.
Hypothesis Ht : Collab.transform p [application] = inr processed.



End CollaboratorRaises.





(** A row of the width the ensemble was trained on is answered. *)
Example matching_vector_answered :
  exists r, App.predict (Example.strict [1; 2; 3]) Example.application = inr r /\
            PyDict.keys (shap_contributions r) = ["A"; "B"; "C"]%string.
Proof. eexists. split; reflexivity. Qed.

(** ** The batch loop *)

Section BatchLoop.
Variable g : Globals.
Variables (m : Collab.Model) (p : Collab.Preprocessor).

Lemma batch_loop_rows (applications : list LoanApplication) :
  forall (idx : Z) (results : list Batch.Row),
    App.batch_loop g m p idx applications results
    = xs <- mapM (Row.explain_row g m p) applications ;;
      ret (results ++ Row.number idx xs).
Proof.
  induction applications as [|a rest IH]; intros idx results.
  - cbn. now rewrite app_nil_r.
  - rewrite batch_loop_cons. cbn [mapM].
    destruct (Row.explain_row g m p a) as [e|x]; cbn [bind]; [reflexivity|].
    rewrite IH.
    destruct (mapM (Row.explain_row g m p) rest) as [e|xs]; cbn [bind ret];
      [reflexivity|].
    cbn [Row.number]. now rewrite <- app_assoc.
Qed.

Lemma mapM_fails {A B : Type} (f : A -> exc B) (l : list A) (a : A) (e : exn) :
  In a l -> f a = inl e -> exists e', mapM f l = inl e'.
Proof.
  induction l as [|y l IH]; cbn; [easy|].
  intros [->|Hin] Hf.
  - rewrite Hf. cbn. eauto.
  - destruct (f y); cbn [bind]; [eauto|].
    destruct (IH Hin Hf) as [e' ->]. cbn. eauto.
Qed.

Lemma mapM_nth {A B : Type} (f : A -> exc B) (l : list A) (ys : list B) :
  mapM f l = inr ys ->
  List.length ys = List.length l /\
  forall i a, nth_error l i = Some a ->
              exists y, f a = inr y /\ nth_error ys i = Some y.
Proof.
  revert ys. induction l as [|x l IH]; intros ys; cbn.
  - intros [= <-]. split; [reflexivity|]. now intros [|i].
  - destruct (f x) as [e|y] eqn:Ef; cbn [bind]; [discriminate|].
    destruct (mapM f l) as [e|ys'] eqn:El; cbn [bind ret]; [discriminate|].
    intros [= <-]. destruct (IH ys' eq_refl) as [Hlen Hnth].
    split; [cbn; now rewrite Hlen|].
    intros [|i] a; cbn.
    + intros [= <-]. eauto.
    + apply Hnth.
Qed.

Lemma mapM_succeeds {A B : Type} (f : A -> exc B) (l : list A) :
  Forall (fun a => exists y, f a = inr y) l -> exists ys, mapM f l = inr ys.
Proof.
  induction 1 as [|a l [y Hy] _ [ys Hys]]; cbn; [eauto|].
  rewrite Hy, Hys. cbn. eauto.
Qed.

Lemma number_nth (xs : list Row.Explained) :
  forall (idx : Z) (i : nat) (x : Row.Explained),
    nth_error xs i = Some x ->
    nth_error (Row.number idx xs) i = Some (Row.to_batch_row (idx + Z.of_nat i) x).
Proof.
  induction xs as [|y xs IH]; intros idx [|i] x; cbn [nth_error Row.number];
    try discriminate.
  - intros [= ->]. now rewrite Z.add_0_r.
  - intros H. rewrite (IH _ _ _ H). do 2 f_equal. lia.
Qed.

Lemma number_length (xs : list Row.Explained) (idx : Z) :
  List.length (Row.number idx xs) = List.length xs.
Proof. revert idx. induction xs as [|y xs IH]; intros idx; cbn; [|rewrite IH]; easy. Qed.

End BatchLoop.

(** What a response of [batch_predict] is made of. *)
Lemma batch_predict_ok_inv (g : Globals) (applications : list LoanApplication)
    (b : Batch.Response) :
  App.batch_predict g applications = inr b ->
  exists m p xs,
    model g = Some m /\ preprocessor g = Some p /\
    mapM (Row.explain_row g m p) applications = inr xs /\
    xs <> [] /\
    Batch.predictions b = Row.number 0 xs.
Proof.
  unfold App.batch_predict, App.batch_predict_try.
  destruct (model g) as [m|]; [|discriminate].
  destruct (preprocessor g) as [p|]; [|discriminate].
  rewrite batch_loop_rows.
  destruct (mapM (Row.explain_row g m p) applications) as [e|xs] eqn:E;
    cbn [bind ret app]; [discriminate|].
  unfold truediv. rewrite number_length.
  destruct xs as [|x xs]; [discriminate|].
  destruct (Z.of_nat (List.length (x :: xs)) =? 0)%Z; cbn [bind raise ret];
    [discriminate|].
  intros [= <-]. exists m, p, (x :: xs). now repeat split.
Qed.

(** ** Whole-batch failure *)

(** C8: when [predict] fails on some application of a batch, the batch
    call fails as a whole, with the same status: the answer is an
    [HTTPException], which carries no rows. *)
Theorem batch_fails_as_a_whole (g : Globals) (applications : list LoanApplication)
    (a : LoanApplication) (h : HTTPException) :
  In a applications ->
  App.predict g a = inl h ->
  exists h', App.batch_predict g applications = inl h' /\
             status_code h' = status_code h.
Proof.
  unfold App.predict, App.batch_predict, App.batch_predict_try.
  intros Hin.
  destruct (model g) as [m|]; [|intros [= <-]; eauto].
  destruct (preprocessor g) as [p|]; [|intros [= <-]; eauto].
  rewrite predict_try_factored, batch_loop_rows.
  destruct (Row.explain_row g m p a) as [e|x] eqn:E; cbn [bind ret]; [|discriminate].
  intros [= <-].
  destruct (mapM_fails _ _ _ _ Hin E) as [e' ->]. cbn [bind]. eauto.
Qed.

Lemma batch_fails_as_a_whole_witness :
  exists h', App.batch_predict Example.rejecting
               [Example.application; Example.application] = inl h' /\
             status_code h' = 500%Z.
Proof.
  apply (batch_fails_as_a_whole Example.rejecting _ Example.application
           {| status_code := 500; detail := str (Raised "feature shape mismatch") |}).
  - now left.
  - reflexivity.
Defined.

(** ** One application, alone or in a batch *)

(** C10: every row of a batch response carries the label, the rounded
    probability and the top factors that [predict] answers for the
    application at that position, under [application_id] = position + 1;
    and a non-empty batch of applications on which [predict] succeeds is
    answered. *)
Theorem batch_row_agrees_with_predict (g : Globals)
    (applications : list LoanApplication) :
  (forall b i a,
     App.batch_predict g applications = inr b ->
     nth_error applications i = Some a ->
     exists r row,
       App.predict g a = inr r /\
       nth_error (Batch.predictions b) i = Some row /\
       Batch.application_id row = (Z.of_nat i + 1)%Z /\
       Batch.prediction row = prediction r /\
       Batch.probability row = probability r /\
       Batch.top_factors row = top_factors r) /\
  (applications <> [] ->
   Forall (fun a => exists r, App.predict g a = inr r) applications ->
   exists b, App.batch_predict g applications = inr b /\
             List.length (Batch.predictions b) = List.length applications).
Proof.
  split.
  - intros b i a Hb Hi.
    apply batch_predict_ok_inv in Hb as (m & p & xs & Hm & Hp & Hxs & _ & Hrows).
    destruct (mapM_nth _ _ _ Hxs) as [_ Hnth].
    destruct (Hnth i a Hi) as (x & Hx & Hxi).
    exists (Row.to_prediction x), (Row.to_batch_row (Z.of_nat i) x).
    split; [now apply predict_of_explained with m p|].
    split; [rewrite Hrows; exact (number_nth xs 0 i x Hxi)|].
    now repeat split.
  - intros Hne Hall.
    destruct applications as [|a0 rest]; [contradiction|].
    assert (Ha0 := Forall_inv Hall). destruct Ha0 as [r0 Hr0].
    apply predict_ok_inv in Hr0 as (m & p & x0 & Hm & Hp & _ & _).
    assert (Hxs : exists xs, mapM (Row.explain_row g m p) (a0 :: rest) = inr xs).
    { apply mapM_succeeds. eapply Forall_impl; [|exact Hall].
      intros a [r Hr]. apply predict_ok_inv in Hr as (m' & p' & x & Hm' & Hp' & Hx & _).
      assert (m' = m) as -> by congruence. assert (p' = p) as -> by congruence.
      eauto. }
    destruct Hxs as [xs Hxs].
    destruct (mapM_nth _ _ _ Hxs) as [Hlen _].
    unfold App.batch_predict, App.batch_predict_try.
    rewrite Hm, Hp, batch_loop_rows, Hxs. cbn [bind ret app].
    unfold truediv. rewrite number_length, Hlen.
    destruct (Z.of_nat (List.length (a0 :: rest)) =? 0)%Z eqn:Ez.
    { cbn in Ez. lia. }
    cbn [bind ret]. eexists. split; [reflexivity|].
    cbn [Batch.predictions]. now rewrite number_length.
Qed.

Lemma batch_row_agrees_with_predict_witness :
  exists b r row,
    App.batch_predict Example.six [Example.application; Example.application] = inr b /\
    App.predict Example.six Example.application = inr r /\
    nth_error (Batch.predictions b) 1 = Some row /\
    Batch.application_id row = 2%Z /\
    Batch.top_factors row = top_factors r.
Proof.
  destruct (batch_row_agrees_with_predict Example.six
              [Example.application; Example.application]) as [H1 H2].
  destruct (H2 ltac:(discriminate)
               ltac:(repeat constructor; eexists; reflexivity)) as (b & Hb & _).
  destruct (H1 b 1%nat Example.application Hb eq_refl)
    as (r & row & Hr & Hrow & Hid & _ & _ & Htf).
  exists b, r, row. repeat split; assumption.
Defined.

(** ** The batch summary *)

Lemma count_label_approved (xs : list Row.Explained) (idx : Z) :
  App.count_label "Approved" (Row.number idx xs)
  = Z.of_nat (List.length (filter (fun x => (Row.label x =? 1)%Z) xs)).
Proof.
  unfold App.count_label. f_equal. revert idx.
  induction xs as [|x xs IH]; intros idx; [reflexivity|].
  cbn [Row.number filter Row.to_batch_row Batch.prediction]. unfold Row.label_of.
  destruct (Row.label x =? 1)%Z; cbn; now rewrite IH.
Qed.

Lemma count_label_rejected (xs : list Row.Explained) (idx : Z) :
  App.count_label "Rejected" (Row.number idx xs)
  = Z.of_nat (List.length (filter (fun x => negb (Row.label x =? 1)%Z) xs)).
Proof.
  unfold App.count_label. f_equal. revert idx.
  induction xs as [|x xs IH]; intros idx; [reflexivity|].
  cbn [Row.number filter Row.to_batch_row Batch.prediction]. unfold Row.label_of.
  destruct (Row.label x =? 1)%Z; cbn; now rewrite IH.
Qed.

(** On a batch that is answered the rows labelled 1 are counted as
    approved, the others as rejected, and the rate is
    [approved / total * 100], computed in floats, rounded to 2 places. *)
Lemma batch_summary (g : Globals) (applications : list LoanApplication)
    (b : Batch.Response) :
  App.batch_predict g applications = inr b ->
  exists m p xs,
    model g = Some m /\ preprocessor g = Some p /\
    mapM (Row.explain_row g m p) applications = inr xs /\
    Batch.total_processed b = Z.of_nat (List.length applications) /\
    Batch.approved b
    = Z.of_nat (List.length (filter (fun x => (Row.label x =? 1)%Z) xs)) /\
    Batch.rejected b
    = Z.of_nat (List.length (filter (fun x => negb (Row.label x =? 1)%Z) xs)) /\
    Batch.approval_rate_percent b
    = PyNum.round
        (PyNum.fl (PyNum.fl (inject_Z (Batch.approved b)
                             / inject_Z (Batch.total_processed b)) * 100)) 2.
Proof.
  unfold App.batch_predict, App.batch_predict_try.
  destruct (model g) as [m|]; [|discriminate].
  destruct (preprocessor g) as [p|]; [|discriminate].
  rewrite batch_loop_rows.
  destruct (mapM (Row.explain_row g m p) applications) as [e|xs] eqn:E;
    cbn [bind ret app]; [discriminate|].
  destruct (mapM_nth _ _ _ E) as [Hlen _].
  unfold truediv. rewrite number_length, Hlen.
  destruct (Z.of_nat (List.length applications) =? 0)%Z eqn:Ez; cbn [bind raise ret];
    [discriminate|].
  intros [= <-]. exists m, p, xs.
  cbn [Batch.total_processed Batch.approved Batch.rejected Batch.approval_rate_percent].
  rewrite count_label_approved, count_label_rejected.
  now repeat split.
Qed.

(** The empty batch on a loaded service: [approved / len(results)] divides
    by zero, and the handler answers status 500. *)
Lemma empty_batch_raises (g : Globals) (m : Collab.Model) (p : Collab.Preprocessor) :
  model g = Some m -> preprocessor g = Some p ->
  App.batch_predict g []
  = inl {| status_code := 500; detail := str ZeroDivisionError |}.
Proof. intros Hm Hp. unfold App.batch_predict. now rewrite Hm, Hp. Qed.

(** C2: on the empty batch the contract asks for an answer with
    [approval_rate = 0]; the endpoint answers status 500, from the
    division by zero. *)
Theorem empty_batch_division_by_zero :
  App.batch_predict Example.three []
  = inl {| status_code := 500; detail := str ZeroDivisionError |} /\
  Spec.approval_rate 0 0 = 0.
Proof. split; reflexivity. Qed.

(** Two approved out of two: the rate is 100. *)
Example two_of_two_approved :
  exists b, App.batch_predict Example.six [Example.application; Example.application]
            = inr b /\
            Batch.approved b = 2%Z /\ Batch.rejected b = 0%Z /\
            Batch.approval_rate_percent b == 100.
Proof. eexists. repeat split; vm_compute; reflexivity. Qed.

(** * Further properties of the service *)

(** ** [get_stats] *)

Lemma truediv_float_nonzero (a b : Q) :
  ~ b == 0 -> truediv_float a b = inr (PyNum.fl (a / b)).
Proof.
  intros H. unfold truediv_float.
  destruct (Qeq_bool b 0) eqn:E; [|reflexivity].
  apply Qeq_bool_iff in E. contradiction.
Qed.

Lemma truediv_nonzero (a b : Z) :
  b <> 0%Z -> truediv a b = inr (PyNum.fl (inject_Z a / inject_Z b)).
Proof.
  intros H. unfold truediv. destruct (Z.eqb_spec b 0); [contradiction|reflexivity].
Qed.

Lemma guarded_average (total : Q) (n : Z) :
  (if (n >? 0)%Z then truediv_float total (inject_Z n) else ret 0)
  = inr (if (n >? 0)%Z then PyNum.fl (total / inject_Z n) else 0).
Proof.
  destruct (n >? 0)%Z eqn:E; [|reflexivity].
  apply truediv_float_nonzero. apply Z.gtb_lt in E. rewrite Zlt_Qlt in E.
  change (inject_Z 0) with 0 in E. lra.
Qed.

Lemma guarded_rate (a d : Z) :
  (if (d >? 0)%Z
   then x <- truediv a d ;; ret (PyNum.round (PyNum.fl (x * 100)) 2)
   else ret 0)
  = inr (if (d >? 0)%Z
         then PyNum.round (PyNum.fl (PyNum.fl (inject_Z a / inject_Z d) * 100)) 2
         else 0).
Proof.
  destruct (d >? 0)%Z eqn:E; [|reflexivity].
  rewrite truediv_nonzero by (apply Z.gtb_lt in E; lia). reflexivity.
Qed.

Lemma guarded_per_minute (n : Z) (uptime : Q) :
  (if PyNum.gtb uptime 0
   then minutes <- truediv_float uptime 60 ;;
        x <- truediv_float (inject_Z n) minutes ;; ret (PyNum.round x 2)
   else ret 0)
  = inr (if PyNum.gtb uptime 0
         then PyNum.round (PyNum.fl (inject_Z n / PyNum.fl (uptime / 60))) 2
         else 0).
Proof.
  destruct (PyNum.gtb uptime 0) eqn:E; [|reflexivity].
  apply gtb_true in E.
  rewrite (truediv_float_nonzero uptime 60) by easy. cbn [bind].
  rewrite truediv_float_nonzero; [reflexivity|].
  intros H. assert (0 < uptime / 60) by (apply Qlt_shift_div_l; lra).
  pose proof (fl_pos _ H0). lra.
Qed.

(** X1: [get_stats] answers for every state of the counters and every
    uptime: each of its three divisions is behind a guard that excludes a
    zero divisor; without decisions the rate is 0, without requests the
    average is 0, without uptime the requests per minute are 0. *)
Theorem get_stats_never_raises (self : APIMetrics.t) (uptime : Q) :
  exists s, APIMetrics.get_stats self uptime = inr s /\
            ((APIMetrics.approved_count self + APIMetrics.rejected_count self <= 0)%Z ->
             Stats.approval_rate_percent s = 0) /\
            ((APIMetrics.total_requests self <= 0)%Z ->
             Stats.avg_response_time_seconds s == 0) /\
            (uptime <= 0 -> Stats.requests_per_minute s = 0).
Proof.
  unfold APIMetrics.get_stats.
  rewrite guarded_average, guarded_rate, guarded_per_minute. cbn [bind ret].
  eexists. split; [reflexivity|]. cbn.
  split; [|split].
  - intros H. destruct (Z.gtb_spec (APIMetrics.approved_count self
                                    + APIMetrics.rejected_count self) 0);
      [lia|reflexivity].
  - intros H. destruct (Z.gtb_spec (APIMetrics.total_requests self) 0);
      [lia|reflexivity].
  - intros H. destruct (PyNum.gtb uptime 0) eqn:E; [|reflexivity].
    apply gtb_true in E. lra.
Qed.

Lemma get_stats_never_raises_witness :
  exists s, APIMetrics.get_stats APIMetrics.init 0 = inr s /\
            Stats.approval_rate_percent s = 0 /\
            Stats.requests_per_minute s = 0.
Proof.
  destruct (get_stats_never_raises APIMetrics.init 0) as (s & Hs & H1 & _ & H3).
  exists s. split; [exact Hs|]. split; [apply H1; cbn; lia|apply H3; lra].
Defined.

(** ** The endpoints and their counters *)

Section EndpointFacts.
Variable g : Globals.

(** The answers are those of the endpoints without the counters. *)
Lemma endpoint_predict_answer (metrics : APIMetrics.t) (rt : Q)
    (application : LoanApplication) :
  fst (Endpoint.predict g metrics rt application) = App.predict g application.
Proof.
  unfold Endpoint.predict, App.predict, Endpoint.not_loaded.
  destruct (model g) as [m|]; [|reflexivity].
  destruct (preprocessor g) as [p|]; [|reflexivity].
  now destruct (App.predict_try g m p application).
Qed.

Lemma endpoint_batch_predict_answer (metrics : APIMetrics.t) (rt : Q)
    (applications : list LoanApplication) :
  fst (Endpoint.batch_predict g metrics rt applications)
  = App.batch_predict g applications.
Proof.
  unfold Endpoint.batch_predict, App.batch_predict, App.batch_predict_try,
    Endpoint.not_loaded.
  destruct (model g) as [m|]; [|reflexivity].
  destruct (preprocessor g) as [p|]; [|reflexivity].
  destruct (App.batch_loop g m p 0 applications []) as [e|results]; cbn [bind];
    [reflexivity|].
  now destruct (truediv _ _).
Qed.

(** Every row of the loop is labelled "Approved" or "Rejected". *)
Lemma batch_loop_counts (m : Collab.Model) (p : Collab.Preprocessor)
    (applications : list LoanApplication) (results : list Batch.Row) :
  App.batch_loop g m p 0 applications [] = inr results ->
  (App.count_label "Approved" results + App.count_label "Rejected" results
   = Z.of_nat (List.length results))%Z /\
  (0 <= App.count_label "Approved" results)%Z /\
  (0 <= App.count_label "Rejected" results)%Z /\
  List.length results = List.length applications.
Proof.
  rewrite batch_loop_rows.
  destruct (mapM (Row.explain_row g m p) applications) as [e|xs] eqn:E;
    cbn [bind ret app]; [discriminate|].
  intros [= <-].
  rewrite count_label_approved, count_label_rejected, number_length.
  destruct (mapM_nth _ _ _ E) as [Hlen _].
  pose proof (filter_length (fun x => (Row.label x =? 1)%Z) xs) as H.
  cbv beta in H. repeat split; lia.
Qed.

Lemma log_prediction_consistent (metrics : APIMetrics.t) (label : string) (rt : Q) :
  consistent metrics -> consistent (APIMetrics.log_prediction metrics label rt).
Proof.
  unfold consistent. cbn. destruct (String.eqb label "Approved"); lia.
Qed.

Lemma log_error_consistent (metrics : APIMetrics.t) :
  consistent metrics -> consistent (APIMetrics.log_error metrics).
Proof. unfold consistent. cbn. lia. Qed.

Lemma log_batch_consistent (metrics : APIMetrics.t) (n a r : Z) (rt : Q) :
  (a + r = n)%Z -> (0 <= a)%Z -> (0 <= r)%Z ->
  consistent metrics -> consistent (APIMetrics.log_batch_prediction metrics n a r rt).
Proof. unfold consistent. cbn. lia. Qed.

Lemma serve_consistent (metrics : APIMetrics.t) (req : Endpoint.Request) :
  consistent metrics -> consistent (snd (Endpoint.serve g metrics req)).
Proof.
  intros H. destruct req as [a rt|apps rt]; cbn [Endpoint.serve].
  - unfold Endpoint.predict.
    destruct (model g) as [m|]; [|now apply log_error_consistent].
    destruct (preprocessor g) as [p|]; [|now apply log_error_consistent].
    destruct (App.predict_try g m p a); cbn [snd].
    + now apply log_error_consistent.
    + now apply log_prediction_consistent.
  - unfold Endpoint.batch_predict.
    destruct (model g) as [m|]; [|now apply log_error_consistent].
    destruct (preprocessor g) as [p|]; [|now apply log_error_consistent].
    destruct (App.batch_loop g m p 0 apps []) as [e|results] eqn:E; cbn [snd].
    + now apply log_error_consistent.
    + destruct (batch_loop_counts _ _ _ _ E) as (Hsum & Ha & Hr & _).
      destruct (truediv _ _); cbn [snd].
      * now apply log_error_consistent, log_batch_consistent.
      * now apply log_batch_consistent.
Qed.

Lemma run_consistent (reqs : list Endpoint.Request) :
  forall metrics, consistent metrics -> consistent (snd (Endpoint.run g metrics reqs)).
Proof.
  induction reqs as [|req rest IH]; intros metrics H; cbn [Endpoint.run]; [exact H|].
  pose proof (serve_consistent metrics req H) as Hs.
  destruct (Endpoint.serve g metrics req) as [a metrics'].
  specialize (IH metrics' Hs).
  now destruct (Endpoint.run g metrics' rest).
Qed.

End EndpointFacts.

Lemma init_consistent : consistent APIMetrics.init.
Proof. unfold consistent. cbn. lia. Qed.

(** X2: whatever requests a process has served, and whichever of them
    failed, approved plus rejected decisions equal single predictions
    plus batch rows, and no counter is negative. *)
Theorem counters_stay_consistent (g : Globals) (reqs : list Endpoint.Request) :
  consistent (snd (Endpoint.run g APIMetrics.init reqs)).
Proof. apply run_consistent, init_consistent. Qed.



(** ** Which answers are counted as what *)

Lemma batch_loop_nil (g : Globals) (m : Collab.Model) (p : Collab.Preprocessor) :
  App.batch_loop g m p 0 [] [] = inr [].
Proof. reflexivity. Qed.

(** X4: an error answer, 503 or 500, adds 1 to [error_count] and leaves
    [total_requests] and the response time alone, with one exception: the
    empty batch on a loaded service is answered 500 and counted both as a
    request and as an error, because the counters are updated before the
    rate is computed. *)
Theorem empty_batch_counted_twice (g : Globals) (metrics : APIMetrics.t) (rt : Q) :
  (forall m p,
     model g = Some m -> preprocessor g = Some p ->
     exists metrics',
       Endpoint.batch_predict g metrics rt []
       = (inl {| status_code := 500; detail := str ZeroDivisionError |}, metrics') /\
       APIMetrics.total_requests metrics' = (APIMetrics.total_requests metrics + 1)%Z /\
       APIMetrics.error_count metrics' = (APIMetrics.error_count metrics + 1)%Z /\
       APIMetrics.total_response_time metrics'
       = PyNum.fl (APIMetrics.total_response_time metrics + rt)) /\
  (forall applications h metrics',
     applications <> [] \/ model g = None \/ preprocessor g = None ->
     Endpoint.batch_predict g metrics rt applications = (inl h, metrics') ->
     APIMetrics.total_requests metrics' = APIMetrics.total_requests metrics /\
     APIMetrics.error_count metrics' = (APIMetrics.error_count metrics + 1)%Z /\
     APIMetrics.total_response_time metrics' = APIMetrics.total_response_time metrics) /\
  (forall application h metrics',
     Endpoint.predict g metrics rt application = (inl h, metrics') ->
     APIMetrics.total_requests metrics' = APIMetrics.total_requests metrics /\
     APIMetrics.error_count metrics' = (APIMetrics.error_count metrics + 1)%Z /\
     APIMetrics.total_response_time metrics' = APIMetrics.total_response_time metrics).
Proof.
  split; [|split].
  - intros m p Hm Hp. unfold Endpoint.batch_predict.
    rewrite Hm, Hp, batch_loop_nil. cbn.
    eexists. split; [reflexivity|]. now cbn.
  - intros applications h metrics' Hcase. unfold Endpoint.batch_predict.
    destruct (model g) as [m|]; [|intros [= <- <-]; now cbn].
    destruct (preprocessor g) as [p|]; [|intros [= <- <-]; now cbn].
    destruct (App.batch_loop g m p 0 applications []) as [e|results] eqn:E.
    + intros [= <- <-]. now cbn.
    + destruct (batch_loop_counts _ _ _ _ _ E) as (_ & _ & _ & Hlen).
      destruct Hcase as [Hne|[Hn|Hn]]; try discriminate.
      rewrite truediv_nonzero; [discriminate|].
      destruct applications; [contradiction|]. rewrite Hlen. cbn. lia.
  - intros application h metrics'. unfold Endpoint.predict.
    destruct (model g) as [m|]; [|intros [= <- <-]; now cbn].
    destruct (preprocessor g) as [p|]; [|intros [= <- <-]; now cbn].
    destruct (App.predict_try g m p application); [|discriminate].
    intros [= <- <-]. now cbn.
Qed.

Lemma empty_batch_counted_twice_witness :
  (exists metrics',
     Endpoint.batch_predict Example.three APIMetrics.init (1 # 100) []
     = (inl {| status_code := 500; detail := str ZeroDivisionError |}, metrics') /\
     APIMetrics.total_requests metrics' = 1%Z /\
     APIMetrics.error_count metrics' = 1%Z) /\
  (exists metrics',
     Endpoint.batch_predict Example.unloaded APIMetrics.init (1 # 100) []
     = (inl Endpoint.not_loaded, metrics') /\
     APIMetrics.total_requests metrics' = 0%Z /\
     APIMetrics.error_count metrics' = 1%Z).
Proof.
  split.
  - destruct (empty_batch_counted_twice Example.three APIMetrics.init (1 # 100))
      as (H & _ & _).
    destruct (H _ _ eq_refl eq_refl) as (metrics' & Hb & Hr & He & _).
    exists metrics'. repeat split; assumption.
  - destruct (empty_batch_counted_twice Example.unloaded APIMetrics.init (1 # 100))
      as (_ & H & _).
    eexists. split; [reflexivity|].
    destruct (H [] _ _ (or_intror (or_introl eq_refl)) eq_refl) as (Hr & He & _).
    split; [exact Hr|exact He].
Defined.

Section Accounting.
Variable g : Globals.

Lemma serve_accounting (metrics : APIMetrics.t) (req : Endpoint.Request) :
  let (a, metrics') := Endpoint.serve g metrics req in
  APIMetrics.error_count metrics'
  = (APIMetrics.error_count metrics + (if Endpoint.is_error a then 1 else 0))%Z /\
  APIMetrics.total_predictions metrics'
  = (APIMetrics.total_predictions metrics + (if is_prediction a then 1 else 0))%Z /\
  APIMetrics.total_batch_predictions metrics'
  = (APIMetrics.total_batch_predictions metrics + rows_of a)%Z.
Proof.
  destruct req as [a rt|apps rt]; cbn [Endpoint.serve].
  - unfold Endpoint.predict.
    destruct (model g) as [m|]; [|cbn; lia].
    destruct (preprocessor g) as [p|]; [|cbn; lia].
    destruct (App.predict_try g m p a); cbn; lia.
  - unfold Endpoint.batch_predict.
    destruct (model g) as [m|]; [|cbn; lia].
    destruct (preprocessor g) as [p|]; [|cbn; lia].
    destruct (App.batch_loop g m p 0 apps []) as [e|results]; [cbn; lia|].
    destruct (truediv _ _) as [e|rate] eqn:E.
    + unfold truediv in E.
      destruct (Z.eqb_spec (Z.of_nat (List.length results)) 0) as [H0|]; [|discriminate].
      cbn. rewrite H0. lia.
    + cbn. lia.
Qed.

Lemma run_accounting (reqs : list Endpoint.Request) :
  forall metrics,
    let (answers, final) := Endpoint.run g metrics reqs in
    List.length answers = List.length reqs /\
    APIMetrics.error_count final
    = (APIMetrics.error_count metrics + count Endpoint.is_error answers)%Z /\
    APIMetrics.total_predictions final
    = (APIMetrics.total_predictions metrics + count is_prediction answers)%Z /\
    APIMetrics.total_batch_predictions final
    = (APIMetrics.total_batch_predictions metrics + sum (map rows_of answers))%Z.
Proof.
  induction reqs as [|req rest IH]; intros metrics; cbn [Endpoint.run].
  - unfold count. cbn. repeat split; lia.
  - pose proof (serve_accounting metrics req) as Hs.
    destruct (Endpoint.serve g metrics req) as [a metrics'].
    specialize (IH metrics').
    destruct (Endpoint.run g metrics' rest) as [answers final].
    destruct Hs as (He & Hp & Hb). destruct IH as (Hl & He' & Hp' & Hb').
    unfold count in *. cbn [map sum filter List.length].
    destruct (Endpoint.is_error a), (is_prediction a); cbn [List.length];
      repeat split; lia.
Qed.

End Accounting.

Section ServiceAccounting.
Variable g : Globals.
Variable type_name : Collab.Model -> string.

Lemma service_serve_accounting (metrics : APIMetrics.t) (req : Service.Request) :
  let (a, metrics') := Service.serve g type_name metrics req in
  APIMetrics.error_count metrics'
  = (APIMetrics.error_count metrics + (if Service.is_post_error a then 1 else 0))%Z /\
  APIMetrics.total_predictions metrics'
  = (APIMetrics.total_predictions metrics + (if Service.is_prediction a then 1 else 0))%Z /\
  APIMetrics.total_batch_predictions metrics'
  = (APIMetrics.total_batch_predictions metrics + Service.rows_of a)%Z.
Proof.
  destruct req as [req|  |uptime|uptime| ]; cbn [Service.serve];
    try (cbn; repeat split; lia).
  pose proof (serve_accounting g metrics req) as H.
  destruct (Endpoint.serve g metrics req) as [a metrics'].
  destruct H as (He & Hp & Hb). cbn [Service.is_post_error].
  split; [exact He|]. split.
  - rewrite Hp. now destruct a as [[h|r]|[h|r]].
  - rewrite Hb. now destruct a as [[h|r]|[h|r]].
Qed.

Lemma service_run_accounting (reqs : list Service.Request) :
  forall metrics,
    let (answers, final) := Service.run g type_name metrics reqs in
    List.length answers = List.length reqs /\
    APIMetrics.error_count final
    = (APIMetrics.error_count metrics + count Service.is_post_error answers)%Z /\
    APIMetrics.total_predictions final
    = (APIMetrics.total_predictions metrics + count Service.is_prediction answers)%Z /\
    APIMetrics.total_batch_predictions final
    = (APIMetrics.total_batch_predictions metrics
       + sum (map Service.rows_of answers))%Z.
Proof.
  induction reqs as [|req rest IH]; intros metrics; cbn [Service.run].
  - unfold count. cbn. repeat split; lia.
  - pose proof (service_serve_accounting metrics req) as Hs.
    destruct (Service.serve g type_name metrics req) as [a metrics'].
    specialize (IH metrics').
    destruct (Service.run g type_name metrics' rest) as [answers final].
    destruct Hs as (He & Hp & Hb). destruct IH as (Hl & He' & Hp' & Hb').
    unfold count in *. cbn [map sum filter List.length].
    destruct (Service.is_post_error a), (Service.is_prediction a); cbn [List.length];
      repeat split; lia.
Qed.

End ServiceAccounting.

(** X5: over any sequence of requests to the five endpoints,
    [error_count] is the number of [POST /predict] and
    [POST /batch_predict] requests answered with an error,
    [total_predictions] the number of single predictions answered, and
    [total_batch_predictions] the number of rows of the batches answered;
    the [GET] endpoints change no counter, so an error of
    [GET /model_info] is not counted. *)
Theorem counters_count_answers (g : Globals) (type_name : Collab.Model -> string)
    (reqs : list Service.Request) :
  let (answers, final) := Service.run g type_name APIMetrics.init reqs in
  List.length answers = List.length reqs /\
  APIMetrics.error_count final = count Service.is_post_error answers /\
  APIMetrics.total_predictions final = count Service.is_prediction answers /\
  APIMetrics.total_batch_predictions final = sum (map Service.rows_of answers).
Proof.
  pose proof (service_run_accounting g type_name reqs APIMetrics.init) as H.
  destruct (Service.run g type_name APIMetrics.init reqs) as [answers final].
  cbn in H. exact H.
Qed.

(** On a service that is not loaded [GET /model_info] answers 503 and
    [error_count] stays 0, where [POST /predict] answers 503 and is
    counted. *)
Example model_info_503_not_counted :
  Service.run Example.unloaded (fun _ => "XGBClassifier"%string) APIMetrics.init
    [Service.GetModelInfo]
  = ([Service.Info (inr (inl Endpoint.not_loaded))], APIMetrics.init) /\
  APIMetrics.error_count
    (snd (Service.run Example.unloaded (fun _ => "XGBClassifier"%string)
            APIMetrics.init
            [Service.Post (Endpoint.PostPredict Example.application (1 # 100))]))
  = 1%Z.
Proof. split; reflexivity. Qed.

(** ** Health, model information and the prediction endpoints *)

(** X6: [GET /health] says "healthy" whatever is loaded; its two flags are
    both true exactly when the prediction endpoints do not answer 503
    "Model not loaded", and then an error of theirs has status 500. *)
Theorem health_flags_and_503 (g : Globals) (uptime : Q)
    (application : LoanApplication) (applications : list LoanApplication) :
  let h := Endpoint.health_check g uptime in
  Endpoint.status h = "healthy"%string /\
  (Endpoint.model_loaded h && Endpoint.preprocessor_loaded h = false <->
   App.predict g application = inl Endpoint.not_loaded) /\
  (Endpoint.model_loaded h && Endpoint.preprocessor_loaded h = false <->
   App.batch_predict g applications = inl Endpoint.not_loaded) /\
  (Endpoint.model_loaded h && Endpoint.preprocessor_loaded h = true ->
   (forall e, App.predict g application = inl e -> status_code e = 500%Z) /\
   (forall e, App.batch_predict g applications = inl e -> status_code e = 500%Z)).
Proof.
  unfold Endpoint.health_check, App.predict, App.batch_predict, Endpoint.not_loaded.
  cbn [Endpoint.status Endpoint.model_loaded Endpoint.preprocessor_loaded].
  split; [reflexivity|].
  destruct (model g) as [m|], (preprocessor g) as [p|]; cbn [andb].
  - destruct (App.predict_try g m p application),
             (App.batch_predict_try g m p applications);
      repeat split; try discriminate; intros; try discriminate;
      match goal with H : inl _ = inl _ |- _ => now injection H as <- end.
  - repeat split; try reflexivity; discriminate.
  - repeat split; try reflexivity; discriminate.
  - repeat split; try reflexivity; discriminate.
Qed.

Lemma health_flags_and_503_witness :
  Endpoint.status (Endpoint.health_check Example.unloaded 0) = "healthy"%string /\
  App.predict Example.unloaded Example.application = inl Endpoint.not_loaded /\
  (forall e, App.predict Example.rejecting Example.application = inl e ->
             status_code e = 500%Z).
Proof.
  split; [reflexivity|]. split.
  - apply (health_flags_and_503 Example.unloaded 0 Example.application []).
    reflexivity.
  - apply (health_flags_and_503 Example.rejecting 0 Example.application []).
    reflexivity.
Defined.

Lemma setitem_keys {V : Type} (k : string) (v : V) (d : PyDict.dict V) :
  PyDict.keys (PyDict.setitem k v d)
  = if existsb (String.eqb k) (PyDict.keys d)
    then PyDict.keys d else PyDict.keys d ++ [k].
Proof.
  induction d as [|[k' v'] d IH]; cbn; [reflexivity|].
  rewrite (String.eqb_sym k k').
  destruct (String.eqb k' k); cbn; [reflexivity|].
  unfold PyDict.keys in *. rewrite IH.
  now destruct (existsb (String.eqb k) (map fst d)).
Qed.

Lemma existsb_eqb_In (k : string) (l : list string) :
  existsb (String.eqb k) l = true <-> In k l.
Proof.
  rewrite existsb_exists. split.
  - intros (x & Hx & E). apply String.eqb_eq in E. now subst.
  - intros H. exists k. split; [exact H|apply String.eqb_refl].
Qed.

(** A dictionary never holds a key twice, and holds no key that was not
    assigned. *)
Lemma fold_setitem_keys {V : Type} (ps : list (string * V)) :
  forall acc : PyDict.dict V,
    NoDup (PyDict.keys acc) ->
    let d := fold_left (fun d kv => PyDict.setitem (fst kv) (snd kv) d) ps acc in
    NoDup (PyDict.keys d) /\
    (forall k, In k (PyDict.keys d) -> In k (PyDict.keys acc) \/ In k (map fst ps)) /\
    (List.length d <= List.length acc + List.length ps)%nat.
Proof.
  induction ps as [|[k v] ps IH]; intros acc Hacc; cbn [fold_left].
  - cbn. repeat split; auto. lia.
  - assert (Hk : NoDup (PyDict.keys (PyDict.setitem k v acc)) /\
                 (forall k', In k' (PyDict.keys (PyDict.setitem k v acc)) ->
                             In k' (PyDict.keys acc) \/ k' = k) /\
                 (List.length (PyDict.setitem k v acc) <= S (List.length acc))%nat).
    { assert (Hlen : forall d : PyDict.dict V,
                 List.length d = List.length (PyDict.keys d))
        by (intros d; unfold PyDict.keys; now rewrite length_map).
      rewrite (Hlen (PyDict.setitem k v acc)), (Hlen acc), setitem_keys.
      destruct (existsb (String.eqb k) (PyDict.keys acc)) eqn:E.
      - repeat split; auto.
      - assert (Hn : ~ In k (PyDict.keys acc)).
        { intros Hin. apply existsb_eqb_In in Hin. congruence. }
        repeat split.
        + apply NoDup_app; [exact Hacc|repeat constructor; easy|].
          intros x Hx [<-|[]]. contradiction.
        + intros k' Hin. apply in_app_or in Hin as [H|[<-|[]]]; auto.
        + rewrite length_app. cbn. lia. }
    destruct Hk as (Hnd & Hin & Hlen).
    destruct (IH (PyDict.setitem k v acc) Hnd) as (IH1 & IH2 & IH3).
    cbn [fst snd]. repeat split.
    + exact IH1.
    + intros k' Hk'. destruct (IH2 k' Hk') as [H|H].
      * destruct (Hin k' H) as [H'| ->]; [now left|right; now left].
      * right. now right.
    + cbn [List.length]. lia.
Qed.

Lemma of_pairs_keys {V : Type} (ps : list (string * V)) :
  NoDup (PyDict.keys (PyDict.of_pairs ps)) /\
  incl (PyDict.keys (PyDict.of_pairs ps)) (map fst ps) /\
  (List.length (PyDict.of_pairs ps) <= List.length ps)%nat.
Proof.
  destruct (fold_setitem_keys ps [] (NoDup_nil _)) as (H1 & H2 & H3).
  split; [exact H1|]. split; [|exact H3].
  intros k Hk. destruct (H2 k Hk) as [[]|H]. exact H.
Qed.

(** The mapping of a row: distinct keys, all among the first names. *)
Lemma contribution_dict_keys (names : list string) (slice : ndarray)
    (d : PyDict.dict Q) :
  App.contribution_dict names slice = inr d ->
  NoDup (PyDict.keys d) /\ incl (PyDict.keys d) names /\
  (List.length d <= List.length names)%nat.
Proof.
  unfold App.contribution_dict.
  destruct (iter slice) as [e|vs]; cbn [bind]; [discriminate|].
  destruct (mapM _ (combine names vs)) as [e|kvs] eqn:E; cbn [bind ret]; [discriminate|].
  intros [= <-].
  destruct (mapM_float_combine _ _ _ E) as [Hk _].
  destruct (of_pairs_keys kvs) as (H1 & H2 & H3).
  split; [exact H1|]. split.
  - intros k Hin. apply H2 in Hin. rewrite Hk, combine_keys in Hin.
    rewrite <- (firstn_skipn (List.length vs) names). apply in_or_app. now left.
  - apply (f_equal (@List.length string)) in Hk.
    rewrite !length_map, length_combine in Hk. lia.
Qed.

Lemma predict_mapping (g : Globals) (application : LoanApplication) (r : Prediction) :
  App.predict g application = inr r ->
  exists m p names vs,
    model g = Some m /\ preprocessor g = Some p /\
    App.stored_feature_names g p = inr names /\
    App.contribution_dict names (Array vs) = inr (shap_contributions r) /\
    top_factors r = Row.rank5 (shap_contributions r).
Proof.
  intros H. apply predict_ok_inv in H as (m & p & x & Hm & Hp & Hx & ->).
  apply explain_row_inv in Hx as (t & _ & _ & _ & _ & Hn & _ & Hd).
  assert (Hs : exists vs, Row.slice t = Array vs).
  { unfold App.contribution_dict in Hd.
    destruct (Row.slice t) as [q|vs]; [discriminate|]. eauto. }
  destruct Hs as [vs Hs]. rewrite Hs in Hd.
  exists m, p, (Row.names t), vs. now repeat split.
Qed.

(** X7: when [predict] has answered, [GET /model_info] answers too, with
    the feature names [predict] has used: every key of the attribution
    mapping is one of the reported names, there are at most [n_features]
    keys, and with distinct names the keys are an initial segment of the
    reported list. *)
Theorem model_info_names_predict (g : Globals) (type_name : Collab.Model -> string)
    (application : LoanApplication) (r : Prediction) :
  App.predict g application = inr r ->
  exists info,
    Endpoint.model_info g type_name = inr (inr info) /\
    Endpoint.n_features info = Z.of_nat (List.length (Endpoint.feature_names info)) /\
    incl (PyDict.keys (shap_contributions r)) (Endpoint.feature_names info) /\
    (Z.of_nat (List.length (shap_contributions r)) <= Endpoint.n_features info)%Z /\
    (NoDup (Endpoint.feature_names info) ->
     exists n, PyDict.keys (shap_contributions r)
               = firstn n (Endpoint.feature_names info)).
Proof.
  intros H.
  apply predict_mapping in H as (m & p & names & vs & Hm & Hp & Hn & Hd & _).
  unfold Endpoint.model_info. rewrite Hm.
  unfold App.stored_feature_names in Hn.
  assert (E : match feature_names_list g with
              | Some (n :: ns) => ret (n :: ns)
              | _ => match preprocessor g with
                     | Some p => Collab.get_feature_names_out p
                     | None => ret []
                     end
              end = inr names).
  { rewrite Hp. destruct (feature_names_list g) as [[|n ns]|]; exact Hn. }
  rewrite E. cbn [bind ret]. eexists. split; [reflexivity|].
  cbn [Endpoint.n_features Endpoint.feature_names].
  destruct (contribution_dict_keys _ _ _ Hd) as (_ & Hincl & Hlen).
  split; [reflexivity|]. split; [exact Hincl|]. split; [lia|].
  intros Hnd. exists (List.length vs).
  now destruct (contribution_dict_distinct _ _ _ Hnd Hd).
Qed.

Lemma model_info_names_predict_witness :
  exists r info,
    App.predict Example.mismatched Example.application = inr r /\
    Endpoint.model_info Example.mismatched (fun _ => "XGBClassifier"%string)
    = inr (inr info) /\
    Endpoint.n_features info = 3%Z /\
    PyDict.keys (shap_contributions r) = firstn 2 (Endpoint.feature_names info).
Proof.
  destruct (model_info_names_predict Example.mismatched
              (fun _ => "XGBClassifier"%string) Example.application _ eq_refl)
    as (info & Hi & Hn & _).
  eexists. exists info. split; [reflexivity|]. split; [exact Hi|].
  injection Hi as <-. split; reflexivity.
Defined.

(** ** The top factors of any response *)

Lemma rank5_features (d : PyDict.dict Q) :
  NoDup (PyDict.keys d) ->
  (List.length (Row.rank5 d) <= 5)%nat /\
  NoDup (map feature (Row.rank5 d)) /\
  incl (map feature (Row.rank5 d)) (PyDict.keys d).
Proof.
  intros Hnd. split; [rewrite rank5_length; lia|].
  unfold Row.rank5. rewrite map_map. cbn [Row.factor_of feature].
  rewrite <- firstn_map.
  assert (Hp : Permutation (map fst (Row.ranking d)) (PyDict.keys d))
    by apply Permutation_map, sorted_desc_perm.
  split.
  - apply NoDup_firstn. exact (Permutation_NoDup (Permutation_sym Hp) Hnd).
  - intros k Hk. apply (Permutation_in _ Hp).
    rewrite <- (firstn_skipn 5 (map fst (Row.ranking d))).
    apply in_or_app. now left.
Qed.

Lemma mapM_In {A B : Type} (f : A -> exc B) (l : list A) (ys : list B) (y : B) :
  mapM f l = inr ys -> In y ys -> exists a, In a l /\ f a = inr y.
Proof.
  revert ys. induction l as [|x l IH]; intros ys; cbn.
  - now intros [= <-].
  - destruct (f x) as [e|y'] eqn:Ef; cbn [bind]; [discriminate|].
    destruct (mapM f l) as [e|ys'] eqn:El; cbn [bind ret]; [discriminate|].
    intros [= <-] [<-|Hin]; [eauto|].
    destruct (IH ys' eq_refl Hin) as (a & Ha & Hfa). eauto.
Qed.

Lemma number_In (xs : list Row.Explained) :
  forall idx row, In row (Row.number idx xs) ->
                  exists x, In x xs /\ Batch.top_factors row = Row.rank5 (Row.attribution x).
Proof.
  induction xs as [|x xs IH]; intros idx row; cbn [Row.number]; [easy|].
  intros [<-|Hin].
  - exists x. split; [now left|reflexivity].
  - destruct (IH _ _ Hin) as (x' & Hx' & E). exists x'. split; [now right|exact E].
Qed.

(** X9: whatever the collaborators answer - duplicate feature names
    included - a response of [predict] and every row of a batch response
    show at most 5 top factors, no feature twice; the mapping of
    [predict] has no key twice and the factors are among its keys. *)
Theorem top_factors_distinct (g : Globals) :
  (forall application r,
     App.predict g application = inr r ->
     (List.length (top_factors r) <= 5)%nat /\
     NoDup (map feature (top_factors r)) /\
     incl (map feature (top_factors r)) (PyDict.keys (shap_contributions r)) /\
     NoDup (PyDict.keys (shap_contributions r))) /\
  (forall applications b row,
     App.batch_predict g applications = inr b ->
     In row (Batch.predictions b) ->
     (List.length (Batch.top_factors row) <= 5)%nat /\
     NoDup (map feature (Batch.top_factors row))).
Proof.
  split.
  - intros application r H.
    apply predict_mapping in H as (m & p & names & vs & _ & _ & _ & Hd & ->).
    destruct (contribution_dict_keys _ _ _ Hd) as (Hnd & _ & _).
    destruct (rank5_features _ Hnd) as (H1 & H2 & H3). auto.
  - intros applications b row Hb Hin.
    apply batch_predict_ok_inv in Hb as (m & p & xs & _ & _ & Hxs & _ & Hrows).
    rewrite Hrows in Hin. apply number_In in Hin as (x & Hx & ->).
    destruct (mapM_In _ _ _ _ Hxs Hx) as (a & _ & Ha).
    apply explain_row_inv in Ha as (t & _ & _ & _ & _ & _ & _ & Hd).
    destruct (contribution_dict_keys _ _ _ Hd) as (Hnd & _ & _).
    destruct (rank5_features _ Hnd) as (H1 & H2 & _). auto.
Qed.

Lemma top_factors_distinct_witness :
  exists r, App.predict Example2.duplicated Example.application = inr r /\
            shap_contributions r = [("A"%string, 2 # 10); ("B"%string, 3 # 10)] /\
            NoDup (map feature (top_factors r)).
Proof.
  eexists. split; [reflexivity|]. split; [reflexivity|].
  destruct (top_factors_distinct Example2.duplicated) as [H _].
  apply (H Example.application). reflexivity.
Defined.

(** ** Start-up *)

(** X8: after start-up the service is loaded as a whole or not at all: if
    the model file, the preprocessor file, the sample transformation or
    the construction of the explainer fails, every name is [None] and
    [predict] answers 503; otherwise model, pipeline and explainer are all
    present, so no request fails for want of the explainer. *)
Theorem load_all_or_nothing (f : Startup.Files) :
  let g := Startup.load f in
  ((exists e, Startup.load_try f = inl e) /\
   g = Example.unloaded /\
   forall application, App.predict g application = inl Endpoint.not_loaded) \/
  (exists m p ex sample,
     Startup.load_try f = inr g /\
     model g = Some m /\ preprocessor g = Some p /\ explainer g = Some ex /\
     Startup.load_model f = inr m /\
     Startup.TreeExplainer f m = inr ex /\
     Collab.transform p Startup.sample_data = inr sample /\
     forall application, App.predict g application <> inl Endpoint.not_loaded).
Proof.
  unfold Startup.load.
  destruct (Startup.load_try f) as [e|g] eqn:E; cbn zeta.
  - left. split; [eauto|]. split; reflexivity.
  - right. unfold Startup.load_try in E.
    destruct (Startup.load_model f) as [e|m]; cbn [bind] in E; [discriminate|].
    destruct (Startup.load_preprocessor f) as [e|payload]; cbn [bind] in E;
      [discriminate|].
    destruct (match payload with
              | Startup.Saved p names => (p, names)
              | Startup.Bare p => (Some p, None)
              end) as [[p|] names]; cbn [App.attr bind raise ret] in E;
      [|discriminate].
    destruct (Collab.transform p Startup.sample_data) as [e|sample] eqn:Et;
      cbn [bind] in E; [discriminate|].
    destruct (Startup.TreeExplainer f m) as [e|ex] eqn:Ex; cbn [bind ret] in E;
      [discriminate|].
    injection E as <-. exists m, p, ex, sample. cbn.
    repeat split; try assumption.
    intros application. unfold App.predict. cbn.
    now destruct (App.predict_try _ m p application).
Qed.

Example load_fitted_and_unfitted :
  (exists r, App.predict (Startup.load Example2.files) Example.application = inr r) /\
  App.predict (Startup.load Example2.unfitted) Example.application
  = inl Endpoint.not_loaded.
Proof. split; [eexists|]; reflexivity. Qed.

(** ** [get_feature_contributions] at its bounds and next to [predict] *)

Lemma fill_short (xs : list Q) (rest : list ndarray) (names : list string) :
  forall (i : nat) (acc : PyDict.dict Q),
    (i <= List.length xs)%nat ->
    (List.length xs < i + List.length names)%nat ->
    ModelExplainer.fill (Array (array1 xs :: rest)) i names acc = inl IndexError.
Proof.
  induction names as [|n names IH]; intros i acc Hi Hlen; cbn [ModelExplainer.fill].
  - cbn in Hlen. lia.
  - cbn [getitem list_getitem nth_error ret bind].
    destruct (nth_error xs i) as [x|] eqn:Ex.
    + rewrite (getitem_array1 _ _ _ Ex). cbn [bind float ret].
      apply IH.
      * assert (i < List.length xs)%nat by (apply nth_error_Some; congruence). lia.
      * cbn in Hlen. lia.
    + unfold array1, getitem, list_getitem. now rewrite nth_error_map, Ex.
Qed.

(** X10: when the explainer's row holds fewer values than there are
    feature names, [get_feature_contributions] raises [IndexError] and
    returns no mapping. *)
Theorem get_feature_contributions_short_row (self : ModelExplainer.t) (X : ndarray)
    (xs : list Q) (rest : list ndarray) :
  Collab.shap_values (ModelExplainer.explainer self)
    (if Nat.eqb (ndim X) 1 then Array [X] else X) = inr (Array (array1 xs :: rest)) ->
  (List.length xs < List.length (ModelExplainer.feature_names self))%nat ->
  ModelExplainer.get_feature_contributions self X = inl IndexError.
Proof.
  intros Hs Hlen. unfold ModelExplainer.get_feature_contributions.
  rewrite Hs. cbn [bind]. rewrite fill_short; [reflexivity|lia|lia].
Qed.

Lemma get_feature_contributions_short_row_witness :
  ModelExplainer.get_feature_contributions Example2.short_row (Array []) = inl IndexError.
Proof.
  apply (get_feature_contributions_short_row Example2.short_row (Array [])
           [2 # 10; 0; -7 # 10] []).
  - reflexivity.
  - cbn. lia.
Defined.

Section SortedAgain.
Context {A : Type} (key : A -> Q).

Lemma insert_desc_head (x : A) (l : list A) :
  Forall (fun y => key y <= key x) l -> insert_desc key x l = x :: l.
Proof.
  destruct l as [|y l]; [reflexivity|]. intros H. cbn.
  destruct (PyNum.gtb (key y) (key x)) eqn:E; [|reflexivity].
  apply gtb_true in E. apply Forall_inv in H. lra.
Qed.

(** Sorting what is sorted changes nothing. *)
Lemma sorted_desc_fixed (l : list A) :
  StronglySorted (ge_key key) l -> sorted_desc key l = l.
Proof.
  induction 1 as [|x l Hs IH Hx]; [reflexivity|].
  change (sorted_desc key (x :: l)) with (insert_desc key x (sorted_desc key l)).
  rewrite IH. now apply insert_desc_head.
Qed.

Lemma sorted_desc_idempotent (l : list A) :
  sorted_desc key (sorted_desc key l) = sorted_desc key l.
Proof. apply sorted_desc_fixed, sorted_desc_sorted. Qed.

(** A change of the elements that keeps every key commutes with sorting. *)
Lemma sorted_desc_map (f : A -> A) (l : list A) :
  (forall x, key (f x) == key x) ->
  sorted_desc key (map f l) = map f (sorted_desc key l).
Proof.
  intros Hf.
  assert (Hi : forall x l', insert_desc key (f x) (map f l')
                            = map f (insert_desc key x l')).
  { intros x l'. induction l' as [|y l' IH]; cbn; [reflexivity|].
    assert (E : PyNum.gtb (key (f y)) (key (f x)) = PyNum.gtb (key y) (key x)).
    { unfold PyNum.gtb. now rewrite (Qcompare_comp _ _ (Hf y) _ _ (Hf x)). }
    rewrite E. destruct (PyNum.gtb (key y) (key x)); cbn; [now rewrite IH|reflexivity]. }
  induction l as [|x l IH]; [reflexivity|].
  change (insert_desc key (f x) (sorted_desc key (map f l))
          = map f (insert_desc key x (sorted_desc key l))).
  now rewrite IH, Hi.
Qed.

End SortedAgain.

(** X11: with distinct feature names and at least one value per name,
    the mapping of [get_feature_contributions] is the ranking of the
    mapping [predict] builds from the same names and values: its first
    five entries, rounded and labelled, are the top factors of [predict],
    and ranking it again changes nothing. *)
Theorem get_feature_contributions_ranks_like_predict (g : Globals)
    (application : LoanApplication) (r : Prediction)
    (p : Collab.Preprocessor) (ex : Collab.Explainer) (processed sv : ndarray)
    (self : ModelExplainer.t) (X : ndarray) (xs : list Q) (rest : list ndarray) :
  App.predict g application = inr r ->
  preprocessor g = Some p -> explainer g = Some ex ->
  Collab.transform p [application] = inr processed ->
  Collab.shap_values ex processed = inr sv ->
  App.stored_feature_names g p = inr (ModelExplainer.feature_names self) ->
  Row.select_slice sv = inr (array1 xs) ->
  Collab.shap_values (ModelExplainer.explainer self)
    (if Nat.eqb (ndim X) 1 then Array [X] else X) = inr (Array (array1 xs :: rest)) ->
  NoDup (ModelExplainer.feature_names self) ->
  (List.length (ModelExplainer.feature_names self) <= List.length xs)%nat ->
  exists d,
    ModelExplainer.get_feature_contributions self X = inr d /\
    d = Row.ranking (shap_contributions r) /\
    top_factors r = map Row.factor_of (firstn 5 (PyDict.items d)) /\
    Row.ranking d = d.
Proof.
  intros H Hp Hex Ht Hs Hn Hsl Hs' Hnd Hlen.
  destruct (predict_trace _ _ _ _ _ _ _ _ H Hp Hex Ht Hs Hn) as (slice & Hsl' & Hd).
  assert (slice = array1 xs) as -> by congruence.
  rewrite contribution_dict_scalars in Hd by assumption. injection Hd as Hd.
  apply predict_mapping in H as (_ & _ & _ & _ & _ & _ & _ & _ & Htf).
  exists (Row.ranking (shap_contributions r)).
  split; [rewrite <- Hd; now apply get_feature_contributions_sorted with rest|].
  split; [reflexivity|]. split; [exact Htf|].
  apply (sorted_desc_idempotent (fun x : string * Q => Qabs (snd x))).
Qed.

Lemma get_feature_contributions_ranks_like_predict_witness :
  exists r d,
    App.predict Example.three Example.application = inr r /\
    ModelExplainer.get_feature_contributions Example.explainer3 (Array []) = inr d /\
    top_factors r = map Row.factor_of (firstn 5 (PyDict.items d)).
Proof.
  destruct (get_feature_contributions_ranks_like_predict
              Example.three Example.application _ _ _ _ _
              Example.explainer3 (Array []) [2 # 10; 0; -7 # 10] []
              eq_refl eq_refl eq_refl eq_refl eq_refl eq_refl eq_refl eq_refl
              ltac:(distinct_names) ltac:(cbn; lia))
    as (d & Hd & _ & Htf & _).
  eexists. exists d. split; [reflexivity|]. split; [exact Hd|exact Htf].
Defined.

(** ** Ranking and signs *)

(** X12: which features are ranked and in what order depends on the
    magnitudes only: changing contributions without changing their
    absolute values (flipping signs) leaves every factor in its place. *)
Theorem ranking_ignores_signs (flip : Q -> Q) (d : PyDict.dict Q) :
  (forall x, Qabs (flip x) == Qabs x) ->
  let d' := map (fun kv : string * Q => (fst kv, flip (snd kv))) d in
  Row.ranking d' = map (fun kv : string * Q => (fst kv, flip (snd kv))) (Row.ranking d) /\
  map feature (Row.rank5 d') = map feature (Row.rank5 d).
Proof.
  intros Hflip d'.
  assert (E : Row.ranking d'
              = map (fun kv : string * Q => (fst kv, flip (snd kv))) (Row.ranking d)).
  { unfold Row.ranking, PyDict.items, d'.
    apply (sorted_desc_map (fun x : string * Q => Qabs (snd x))).
    intros [k x]. apply Hflip. }
  split; [exact E|].
  unfold Row.rank5. rewrite E, !map_map, <- !firstn_map, map_map. reflexivity.
Qed.

Lemma ranking_ignores_signs_witness :
  map feature (Row.rank5 [("A"%string, - (2 # 10)); ("B"%string, - 0);
                          ("C"%string, - (-7 # 10))])
  = map feature (Row.rank5 [("A"%string, 2 # 10); ("B"%string, 0);
                            ("C"%string, -7 # 10)]).
Proof.
  apply (ranking_ignores_signs Qopp
           [("A"%string, 2 # 10); ("B"%string, 0); ("C"%string, -7 # 10)]).
  intros x. apply Qabs_opp.
Defined.

(** ** The summary of an answered batch *)

(** X13: an answered batch has one row per application and at least one;
    approved and rejected add up to the number of rows, and the approval
    rate lies between 0 and 100. *)
Theorem batch_summary_adds_up (g : Globals) (applications : list LoanApplication)
    (b : Batch.Response) :
  App.batch_predict g applications = inr b ->
  List.length (Batch.predictions b) = List.length applications /\
  Batch.total_processed b = Z.of_nat (List.length applications) /\
  (0 < Batch.total_processed b)%Z /\
  (Batch.approved b + Batch.rejected b = Batch.total_processed b)%Z /\
  (0 <= Batch.approved b)%Z /\ (0 <= Batch.rejected b)%Z /\
  0 <= Batch.approval_rate_percent b <= 100.
Proof.
  intros H.
  pose proof (batch_predict_ok_inv _ _ _ H) as (m0 & p0 & xs0 & _ & _ & Hxs0 & Hne & Hrows).
  apply batch_summary in H as (m & p & xs & Hm & Hp & Hxs & Ht & Ha & Hr & Hrate).
  destruct (mapM_nth _ _ _ Hxs) as [Hlen _].
  destruct (mapM_nth _ _ _ Hxs0) as [Hlen0 _].
  pose proof (filter_length (fun x => (Row.label x =? 1)%Z) xs) as Hf.
  cbv beta in Hf.
  assert (Hpos : (0 < Z.of_nat (List.length applications))%Z).
  { destruct xs0; [contradiction|]. cbn in Hlen0. lia. }
  split; [rewrite Hrows, number_length; exact Hlen0|].
  split; [exact Ht|]. split; [lia|]. split; [lia|]. split; [lia|]. split; [lia|].
  rewrite Hrate. apply round_percent, rate_percent; lia.
Qed.

Lemma batch_summary_adds_up_witness :
  exists b,
    App.batch_predict Example.three [Example.application; Example.application] = inr b /\
    (Batch.approved b + Batch.rejected b = Batch.total_processed b)%Z /\
    0 <= Batch.approval_rate_percent b <= 100.
Proof.
  eexists. split; [reflexivity|].
  destruct (batch_summary_adds_up Example.three
              [Example.application; Example.application] _ eq_refl)
    as (_ & _ & _ & Hsum & _ & _ & Hrate).
  split; [exact Hsum|exact Hrate].
Defined.

(** ** The counters of [api/monitoring.py] *)

Lemma monitoring_calls_keep (calls : list Monitoring.Call) :
  forall self,
    (Monitoring.approved_count self + Monitoring.rejected_count self
     = Monitoring.total_predictions self)%Z ->
    (0 <= Monitoring.approved_count self)%Z ->
    (0 <= Monitoring.rejected_count self)%Z ->
    let final := fold_left Monitoring.call calls self in
    (Monitoring.approved_count final + Monitoring.rejected_count final
     = Monitoring.total_predictions final)%Z /\
    (0 <= Monitoring.approved_count final)%Z /\
    (0 <= Monitoring.rejected_count final)%Z.
Proof.
  induction calls as [|c calls IH]; intros self H1 H2 H3; cbn [fold_left]; [auto|].
  apply IH; destruct c as [label rt|n rt|]; cbn;
    try destruct (String.eqb label "Approved"); lia.
Qed.

(** X14: in the monitoring module batches do not count as decisions:
    after any calls of its logging methods approved plus rejected equal
    [total_predictions], [get_stats] answers, and its approval rate lies
    between 0 and 100. *)
Theorem monitoring_rate_is_a_percentage (calls : list Monitoring.Call) :
  let final := fold_left Monitoring.call calls Monitoring.init in
  (Monitoring.approved_count final + Monitoring.rejected_count final
   = Monitoring.total_predictions final)%Z /\
  exists s, Monitoring.get_stats final = inr s /\
            0 <= MonitoringStats.approval_rate s <= 100.
Proof.
  intros final.
  destruct (monitoring_calls_keep calls Monitoring.init eq_refl
              ltac:(cbn; lia) ltac:(cbn; lia)) as (H1 & H2 & H3).
  fold final in H1, H2, H3. split; [exact H1|].
  unfold Monitoring.get_stats. rewrite guarded_average, guarded_rate. cbn [bind ret].
  eexists. split; [reflexivity|]. cbn.
  destruct (Z.gtb_spec (Monitoring.total_predictions final) 0).
  - apply round_percent, rate_percent; lia.
  - split; lra.
Qed.

(** ** A feature name that occurs twice *)

Lemma get_setitem {V : Type} (k k' : string) (v : V) (d : PyDict.dict V) :
  dict_get k' (PyDict.setitem k v d)
  = if String.eqb k k' then Some v else dict_get k' d.
Proof.
  induction d as [|[k0 v0] d IH]; cbn; [reflexivity|].
  destruct (String.eqb_spec k0 k) as [->|Hne]; cbn.
  - now destruct (String.eqb k k').
  - rewrite IH. destruct (String.eqb_spec k0 k') as [->|]; [|reflexivity].
    destruct (String.eqb_spec k k'); [congruence|reflexivity].
Qed.

Lemma get_app {V : Type} (k : string) (d1 d2 : PyDict.dict V) :
  dict_get k (d1 ++ d2)
  = match dict_get k d1 with Some v => Some v | None => dict_get k d2 end.
Proof.
  induction d1 as [|[k0 v0] d1 IH]; cbn; [reflexivity|].
  now destruct (String.eqb k0 k).
Qed.

Lemma get_fold_setitem {V : Type} (k : string) (ps : list (string * V)) :
  forall acc : PyDict.dict V,
    dict_get k (fold_left (fun d kv => PyDict.setitem (fst kv) (snd kv) d) ps acc)
    = match dict_get k (rev ps) with Some v => Some v | None => dict_get k acc end.
Proof.
  induction ps as [|[k0 v0] ps IH]; intros acc; cbn [fold_left rev]; [reflexivity|].
  rewrite IH, get_app, get_setitem. cbn.
  destruct (dict_get k (rev ps)); [reflexivity|].
  now destruct (String.eqb k0 k).
Qed.

Lemma get_of_pairs {V : Type} (k : string) (ps : list (string * V)) :
  dict_get k (PyDict.of_pairs ps) = dict_get k (rev ps).
Proof.
  unfold PyDict.of_pairs. rewrite get_fold_setitem.
  now destruct (dict_get k (rev ps)).
Qed.

Lemma contribution_dict_of_pairs (names : list string) (xs : list Q) :
  App.contribution_dict names (array1 xs) = inr (PyDict.of_pairs (combine names xs)).
Proof.
  unfold App.contribution_dict, array1, iter.
  unfold bind at 1. unfold ret at 1. rewrite contribution_pairs. reflexivity.
Qed.

(** X15: the feature names need not be distinct: the value [predict]
    reports under a name is the one zipped with the last occurrence of that
    name, and a name that is not zipped has no entry. *)
Theorem duplicate_name_last_value (g : Globals) (application : LoanApplication)
    (r : Prediction) (p : Collab.Preprocessor) (ex : Collab.Explainer)
    (processed sv : ndarray) (names : list string) (xs : list Q) :
  App.predict g application = inr r ->
  preprocessor g = Some p -> explainer g = Some ex ->
  Collab.transform p [application] = inr processed ->
  Collab.shap_values ex processed = inr sv ->
  App.stored_feature_names g p = inr names ->
  Row.select_slice sv = inr (array1 xs) ->
  forall k, dict_get k (shap_contributions r) = dict_get k (rev (combine names xs)).
Proof.
  intros H Hp Hex Ht Hs Hn Hsl k.
  destruct (predict_trace _ _ _ _ _ _ _ _ H Hp Hex Ht Hs Hn) as (slice & Hsl' & Hd).
  assert (slice = array1 xs) as -> by congruence.
  rewrite contribution_dict_of_pairs in Hd. injection Hd as <-.
  apply get_of_pairs.
Qed.

Lemma duplicate_name_last_value_witness :
  exists r, App.predict Example2.duplicated Example.application = inr r /\
            dict_get "A" (shap_contributions r) = Some (2 # 10) /\
            dict_get "C" (shap_contributions r) = None.
Proof.
  eexists. split; [reflexivity|].
  pose proof (duplicate_name_last_value Example2.duplicated Example.application
                _ _ _ _ _ ["A"; "A"; "B"]%string [1 # 10; 2 # 10; 3 # 10]
                eq_refl eq_refl eq_refl eq_refl eq_refl eq_refl eq_refl) as H.
  split; [exact (H "A"%string)|exact (H "C"%string)].
Defined.

(** ** Which failure a batch reports *)

Lemma mapM_app_fail {A B : Type} (f : A -> exc B) (pre post : list A) (a : A)
    (e : exn) :
  Forall (fun x => exists y, f x = inr y) pre ->
  f a = inl e -> mapM f (pre ++ a :: post) = inl e.
Proof.
  intros Hpre Ha. induction Hpre as [|x pre [y Hy] _ IH]; cbn.
  - now rewrite Ha.
  - now rewrite Hy, IH.
Qed.

(** X16: the rows are processed in input order and the batch reports the
    first failure: when [predict] answers every application before [a]
    and fails on [a], the batch call fails with exactly the answer
    [predict] gives for [a], whatever follows. *)
Theorem batch_reports_first_failure (g : Globals)
    (before after : list LoanApplication) (a : LoanApplication) (h : HTTPException) :
  Forall (fun a' => exists r, App.predict g a' = inr r) before ->
  App.predict g a = inl h ->
  App.batch_predict g (before ++ a :: after) = inl h.
Proof.
  unfold App.batch_predict, App.batch_predict_try. intros Hb Ha.
  unfold App.predict in Ha.
  destruct (model g) as [m|] eqn:Hm; [|now injection Ha as <-].
  destruct (preprocessor g) as [p|] eqn:Hp; [|now injection Ha as <-].
  rewrite predict_try_factored in Ha. rewrite batch_loop_rows.
  destruct (Row.explain_row g m p a) as [e|x] eqn:E; cbn [bind ret] in Ha;
    [|discriminate].
  injection Ha as <-.
  rewrite (mapM_app_fail _ before after a e); [reflexivity| |exact E].
  eapply Forall_impl; [|exact Hb].
  intros a' [r Hr]. apply predict_ok_inv in Hr as (m' & p' & x & Hm' & Hp' & Hx & _).
  assert (m' = m) as -> by congruence. assert (p' = p) as -> by congruence. eauto.
Qed.

Lemma batch_reports_first_failure_witness :
  (exists r, App.predict Example2.selective Example.application = inr r) /\
  App.predict Example2.selective Example2.no_income
  = inl {| status_code := 500; detail := str (Raised "no income") |} /\
  App.batch_predict Example2.selective
    [Example.application; Example2.no_loan_amount; Example2.no_income]
  = inl {| status_code := 500; detail := str (Raised "no loan amount") |}.
Proof.
  split; [eexists; reflexivity|]. split; [reflexivity|].
  apply (batch_reports_first_failure Example2.selective
           [Example.application] [Example2.no_income] Example2.no_loan_amount).
  - constructor; [eexists; reflexivity|constructor].
  - reflexivity.
Defined.

(** ** What a factor displays *)

Lemma round_sign (x : Q) (n : nat) :
  (0 <= x -> 0 <= PyNum.round x n) /\ (x <= 0 -> PyNum.round x n <= 0).
Proof.
  unfold PyNum.round. set (p := inject_Z (10 ^ Z.of_nat n)).
  assert (Hp : 0 < p).
  { unfold p. rewrite <- (Zlt_Qlt 0). apply Z.pow_pos_nonneg; lia. }
  split; intros H.
  - assert (Hz : (0 <= PyNum.round_half_even (x * p))%Z).
    { apply round_half_even_lower. change (inject_Z 0) with 0.
      apply Qmult_le_0_compat; lra. }
    rewrite Zle_Qle in Hz. change (inject_Z 0) with 0 in Hz.
    apply Qle_shift_div_l; lra.
  - assert (Hz : (PyNum.round_half_even (x * p) <= 0)%Z).
    { apply round_half_even_upper. change (inject_Z 0) with 0.
      assert (0 <= (- x) * p) by (apply Qmult_le_0_compat; lra). lra. }
    rewrite Zle_Qle in Hz. change (inject_Z 0) with 0 in Hz.
    apply Qle_shift_div_r; lra.
Qed.

(** X17: the displayed contribution of a factor agrees with its label and
    with the mapping: a "Positive" factor never displays a negative
    number, a "Negative" one never a positive number, and the number is
    within 0.00005 of the raw contribution of that feature. *)
Theorem displayed_contribution_agrees (g : Globals) (application : LoanApplication)
    (r : Prediction) :
  App.predict g application = inr r ->
  Forall (fun f =>
            (impact f = "Positive"%string -> 0 <= contribution f) /\
            (impact f = "Negative"%string -> contribution f <= 0) /\
            exists c, dict_get (feature f) (shap_contributions r) = Some c /\
                      Qabs (contribution f - c) <= 5 # 100000)
         (top_factors r).
Proof.
  intros H.
  pose proof (predict_mapping _ _ _ H) as (m & p & names & vs & _ & _ & _ & Hd & Htf).
  destruct (contribution_dict_keys _ _ _ Hd) as (Hnd & _ & _).
  rewrite Htf. unfold Row.rank5.
  apply Forall_map, Forall_forall. intros [feat c] Hin.
  apply in_ranking in Hin.
  destruct (factor_of_impact (feat, c)) as [Hp Hn]. cbn [snd] in Hp, Hn.
  destruct (round_sign c 4) as [Hpos Hneg].
  cbn [Row.factor_of contribution feature fst snd] in *.
  split; [|split].
  - intros E. apply Hpos, Qlt_le_weak. now apply Hp.
  - intros E. apply Hneg. apply Hn in E. lra.
  - exists c. split.
    2:{ eapply Qle_trans; [exact (round_near c 4)|]. now vm_compute. }
    clear - Hnd Hin. unfold PyDict.items, PyDict.keys in *.
    induction (shap_contributions r) as [|[k v] d IH]; [easy|].
    cbn in *. apply NoDup_cons_iff in Hnd as [Hk Hnd].
    destruct Hin as [[= -> ->]|Hin].
    + now rewrite String.eqb_refl.
    + destruct (String.eqb_spec k feat) as [->|_]; [|now apply IH].
      elim Hk. now apply (in_map fst _ (feat, c)).
Qed.

Lemma displayed_contribution_agrees_witness :
  exists r, App.predict Example.three Example.application = inr r /\
            Forall (fun f =>
                      (impact f = "Positive"%string -> 0 <= contribution f) /\
                      (impact f = "Negative"%string -> contribution f <= 0) /\
                      exists c, dict_get (feature f) (shap_contributions r) = Some c /\
                                Qabs (contribution f - c) <= 5 # 100000)
                   (top_factors r).
Proof.
  eexists. split; [reflexivity|].
  apply (displayed_contribution_agrees Example.three Example.application).
  reflexivity.
Defined.
